(** * shhh: the reverse tunnels of the SSH server

    A shallow embedding of the handler of "tcpip-forward" requests, of
    its accept loop and relays, and of the TCP helpers
    ([allowTCPForwarding], [tcpListen]).

    The server exists in two sources that share the request handler up
    to the goroutine that serves the listener: in [ssh_server.go] the
    accept loop is written inside the handler ([Inline]); in the other
    source it is the function [tcpipForwardConnectionHandler], called
    with the helpers [notifier] and [newChannel] ([Refactored]).

    Go values are modelled as follows: [uint32] and [int] are [Z] (the
    conversions write the wrap-around out), a Go [string] is a [string],
    a byte slice is a [list byte], the key/value bag of [ssh.Context] is
    a [gmap], channels of strings live in a store indexed by channel
    identifiers so that aliasing is visible, and every effect is
    recorded in a trace of events. What the operating system and the
    peer answer (the result of [net.Listen], of [Accept], of opening a
    channel, of [io.Copy]) is an argument of the functions. The
    functions of [strconv], [net] and [gossh] that the server calls are
    modelled after the Go libraries. *)

From Stdlib Require Import ZArith.
From Stdlib.Strings Require Import Ascii String Byte.
From stdpp Require Import gmap strings list.

Local Open Scope Z_scope.

(** ** Machine integers *)

Definition uint32_max : Z := 4294967295.
Definition int_max : Z := 9223372036854775807.
Definition int_min : Z := -9223372036854775808.

(** The conversion [uint32(x)] of an [int]. *)
Definition uint32 (x : Z) : Z := x mod 2 ^ 32.

(** ** Package strconv *)
Module strconv.

Definition digit (d : Z) : ascii := ascii_of_N (Z.to_N (48 + d)).

(** Decimal digits of a non-negative number, most significant first. *)
Fixpoint digits (fuel : nat) (n : Z) : string :=
  match fuel with
  | O => String (digit (n mod 10)) EmptyString
  | S fuel' =>
      if n <? 10 then String (digit n) EmptyString
      else digits fuel' (n / 10) +:+ String (digit (n mod 10)) EmptyString
  end.

(** [strconv.Itoa]: a 64-bit [int] has at most 19 decimal digits. *)
Definition Itoa (i : Z) : string :=
  if i <? 0 then String "-" (digits 19 (- i)) else digits 19 i.

Inductive NumError := ErrSyntax | ErrRange.

(** The value of a byte as a decimal digit, as in [ch -= '0'; ch > 9]. *)
Definition digit_val (c : ascii) : option Z :=
  let v := Z.of_N (N_of_ascii c) - 48 in
  if (0 <=? v) && (v <=? 9) then Some v else None.

(** What the digit loop ends with: the number, a byte that is no digit,
    or a number that leaves [uint64]. *)
Inductive digits_result := Parsed (n : Z) | BadSyntax | Overflow.

Definition uint64_max : Z := 18446744073709551615.

(** The digit loop [n = n*10 + int(ch)] of [Atoi], with the checks of
    [ParseUint]: the loop stops at the first byte that is no digit, and
    at the first digit with which the number leaves [uint64], whatever
    follows. *)
Fixpoint parse_digits (n : Z) (s : string) : digits_result :=
  match s with
  | EmptyString => Parsed n
  | String c s' =>
      match digit_val c with
      | Some d =>
          if uint64_max <? n * 10 + d then Overflow
          else parse_digits (n * 10 + d) s'
      | None => BadSyntax
      end
  end.

(** [strconv.Atoi]: an optional sign and at least one decimal digit; a
    syntax error yields 0, a value outside of [int] the nearest bound,
    both together with an error. *)
Definition Atoi (s : string) : Z * option NumError :=
  let '(neg, body) :=
    match s with
    | String c s' =>
        if Ascii.eqb c "-" then (true, s')
        else if Ascii.eqb c "+" then (false, s')
        else (false, s)
    | EmptyString => (false, s)
    end in
  match body with
  | EmptyString => (0, Some ErrSyntax)
  | _ =>
      match parse_digits 0 body with
      | BadSyntax => (0, Some ErrSyntax)
      | Overflow => (if neg then int_min else int_max, Some ErrRange)
      | Parsed n =>
          let v := if neg then - n else n in
          if v <? int_min then (int_min, Some ErrRange)
          else if int_max <? v then (int_max, Some ErrRange)
          else (v, None)
      end
  end.

End strconv.

(** ** Package net *)
Module net.

(** [bytealg.IndexByteString]: index of the first [c] in [s], or -1. *)
Fixpoint IndexByteString (s : string) (c : ascii) : Z :=
  match s with
  | EmptyString => -1
  | String a s' =>
      if Ascii.eqb a c then 0
      else let i := IndexByteString s' c in
           if i <? 0 then -1 else i + 1
  end.

(** [last]: index of the last [c] in [s], or -1. *)
Fixpoint last (s : string) (c : ascii) : Z :=
  match s with
  | EmptyString => -1
  | String a s' =>
      let i := last s' c in
      if 0 <=? i then i + 1
      else if Ascii.eqb a c then 0 else -1
  end.

(** The slice expression [s[i:j]]. *)
Definition slice (s : string) (i j : Z) : string :=
  substring (Z.to_nat i) (Z.to_nat (j - i)) s.

Definition len (s : string) : Z := Z.of_nat (String.length s).

(** [net.JoinHostPort]: a host with a colon is taken to be a literal
    IPv6 address and is bracketed. *)
Definition JoinHostPort (host port : string) : string :=
  if 0 <=? IndexByteString host ":" then
    "[" +:+ host +:+ "]:" +:+ port
  else host +:+ ":" +:+ port.

Inductive AddrError :=
| missingPort | tooManyColons | missingBracket
| unexpectedOpen | unexpectedClose.

(** [net.SplitHostPort]. On an error both strings are empty. *)
Definition SplitHostPort (hostport : string)
  : string * string * option AddrError :=
  let addrErr why := (EmptyString, EmptyString, Some why) in
  let i := last hostport ":" in
  if i <? 0 then addrErr missingPort
  else
    let bracketed :=
      match hostport with
      | String c _ => Ascii.eqb c "["
      | EmptyString => false
      end in
    let check :=
      if bracketed then
        let end_ := IndexByteString hostport "]" in
        if end_ <? 0 then inr missingBracket
        else if end_ + 1 =? len hostport then inr missingPort
        else if end_ + 1 =? i then inl (slice hostport 1 end_, 1, end_ + 1)
        else match String.get (Z.to_nat (end_ + 1)) hostport with
             | Some c =>
                 if Ascii.eqb c ":" then inr tooManyColons
                 else inr missingPort
             | None => inr missingPort
             end
      else
        let host := slice hostport 0 i in
        if 0 <=? IndexByteString host ":" then inr tooManyColons
        else inl (host, 0, 0) in
    match check with
    | inr why => addrErr why
    | inl (host, j, k) =>
        if 0 <=? IndexByteString (slice hostport j (len hostport)) "["
        then addrErr unexpectedOpen
        else if 0 <=? IndexByteString (slice hostport k (len hostport)) "]"
        then addrErr unexpectedClose
        else (host, slice hostport (i + 1) (len hostport), None)
    end.

(** The address of a TCP endpoint; [host] is the textual IP address
    (with its zone, if any). *)
Record TCPAddr := { IP : string; Port : Z }.

(** The [String] method of a TCP address. *)
Definition TCPAddr_String (a : TCPAddr) : string :=
  JoinHostPort (IP a) (strconv.Itoa (Port a)).

(** An error of [Accept]. [op_error] records whether its dynamic type
    is [*net.OpError], the only one the accept loop asks for
    [Timeout()] and [Temporary()]. *)
Record error := {
  op_error : bool;
  Timeout : bool;
  Temporary : bool;
  Error : string
}.

End net.

(** ** Package gossh: the wire encoding of RFC 4251 *)
Module gossh.

(** The conversion [byte(v)]. *)
Definition byte_of_Z (v : Z) : byte :=
  default x00 (Byte.of_N (Z.to_N (v mod 256))).

Definition Z_of_byte (b : byte) : Z := Z.of_N (Byte.to_N b).

(** [binary.BigEndian.PutUint32] *)
Definition PutUint32 (v : Z) : list byte :=
  [ byte_of_Z (Z.shiftr v 24); byte_of_Z (Z.shiftr v 16);
    byte_of_Z (Z.shiftr v 8); byte_of_Z v ].

(** [binary.BigEndian.Uint32] on the first four bytes. *)
Definition Uint32 (b0 b1 b2 b3 : byte) : Z :=
  Z.lor (Z_of_byte b3)
    (Z.lor (Z.shiftl (Z_of_byte b2) 8)
       (Z.lor (Z.shiftl (Z_of_byte b1) 16) (Z.shiftl (Z_of_byte b0) 24))).

Definition parseUint32 (data : list byte) : option (Z * list byte) :=
  match data with
  | b0 :: b1 :: b2 :: b3 :: rest => Some (Uint32 b0 b1 b2 b3, rest)
  | _ => None
  end.

Definition parseString (data : list byte)
  : option (list byte * list byte) :=
  match parseUint32 data with
  | Some (length, data) =>
      if Z.of_nat (List.length data) <? length then None
      else Some (take (Z.to_nat length) data, drop (Z.to_nat length) data)
  | None => None
  end.

Definition appendString (s : string) : list byte :=
  PutUint32 (uint32 (Z.of_nat (String.length s))) ++ list_byte_of_string s.

(** The request of a "tcpip-forward" global request. *)
Record request := { BindAddr : string; BindPort : Z }.

(** [gossh.Unmarshal] into the request struct: a string, a uint32, and
    nothing after them. [None] stands for a non-nil error. *)
Definition Unmarshal_request (data : list byte) : option request :=
  match data with
  | [] => None
  | _ =>
      match parseString data with
      | None => None
      | Some (s, data) =>
          match parseUint32 data with
          | None => None
          | Some (u32, data) =>
              match data with
              | [] => Some {| BindAddr := string_of_list_byte s;
                              BindPort := u32 |}
              | _ => None
              end
          end
      end
  end.

(** [gossh.Marshal] of the request struct, as a client sends it. *)
Definition Marshal_request (r : request) : list byte :=
  appendString (BindAddr r) ++ PutUint32 (BindPort r).

(** The payload of a "forwarded-tcpip" channel open. *)
Record forward := {
  DestAddr : string; DestPort : Z;
  OriginAddr : string; OriginPort : Z
}.

Definition Marshal_forward (f : forward) : list byte :=
  appendString (DestAddr f) ++ PutUint32 (DestPort f)
    ++ appendString (OriginAddr f) ++ PutUint32 (OriginPort f).

(** The reply [struct{ BindPort uint32 }]. *)
Definition Marshal_response (BindPort : Z) : list byte :=
  PutUint32 BindPort.

Definition Unmarshal_response (data : list byte) : option Z :=
  match data with
  | [] => None
  | _ =>
      match parseUint32 data with
      | Some (u32, []) => Some u32
      | _ => None
      end
  end.

End gossh.

(** ** Handles of the run-time objects *)

(** A channel of strings made by [make(chan string)]. *)
Abbreviation chan_id := nat (only parsing).

(** A [*gossh.ServerConn]. *)
Abbreviation ServerConn := nat (only parsing).

(** A [gossh.Channel] opened on the connection, and the channel of its
    incoming requests. *)
Abbreviation Channel := nat (only parsing).
Abbreviation Requests := nat (only parsing).

(** A bound [net.Listener] and an accepted [net.Conn]. *)
Record Listener := { ln_id : nat; Addr : net.TCPAddr }.
Record Conn := { conn_id : nat; RemoteAddr : net.TCPAddr }.

(** The operating system, as far as [net.Listen(network, address)] sees
    it: [None] stands for a non-nil error. *)
Definition OS := string -> string -> option Listener.

(** ** The context of a connection *)

Inductive ctx_key :=
| KeyString (s : string)      (* a plain string used as a key *)
| ContextKeyConn.             (* ssh.ContextKeyConn *)

Inductive ctx_value :=
| VChanString (c : chan_id)
| VServerConn (c : ServerConn)
| VString (s : string).

#[global] Instance ctx_key_eq_dec : EqDecision ctx_key.
Proof. solve_decision. Defined.

#[global] Instance ctx_key_countable : Countable ctx_key :=
  inj_countable'
    (fun k => match k with KeyString s => Some s | ContextKeyConn => None end)
    (fun o => match o with Some s => KeyString s | None => ContextKeyConn end)
    (fun k => match k with KeyString _ | ContextKeyConn => eq_refl end).

Abbreviation Context := (gmap ctx_key ctx_value) (only parsing).

(** key name for tracking 'messages' channel in ssh.Context *)
Definition messageChannelName : string := "messages".

(** SSH request type constant for TCP/IP port forward *)
Definition tcpipForwardRequest : string := "tcpip-forward".

(** SSH request type constant for opening new channel for incoming
    request on a forwarded port *)
Definition tcpipForwardIncomingConnectionRequest : string :=
  "forwarded-tcpip".

(** ** Goroutines, events and the world *)

(** The two sources of the server: [ssh_server.go], whose accept loop is
    written inside the request handler, and its variant that calls
    [tcpipForwardConnectionHandler]. *)
Inductive revision := Inline | Refactored.

(** The direction of a copy loop: [io.Copy(channel, conn)] or
    [io.Copy(conn, channel)]. *)
Inductive direction := ToChannel | ToConn.

(** The goroutines started by [go] statements, with the variables their
    closures capture. A [gossh.Channel] or request channel that may be
    nil is an [option]. *)
Inductive goroutine :=
| GoCloseOnDone (ln : Listener)
| GoAccept (rev : revision) (ln : Listener) (messages : chan_id)
    (sshConnection : ServerConn) (BindAddr : string) (destPort : Z)
| GoDiscardRequests (reqs : option Requests)
| GoCopy (dir : direction) (channel : option Channel) (conn : Conn).

Inductive event :=
| EvListen (network address : string)
| EvSend (c : chan_id) (msg : string)
| EvClose (c : chan_id)
| EvGo (g : goroutine)
| EvAccept (ln : Listener)
| EvOpenChannel (sshConnection : ServerConn) (name : string)
    (payload : list byte)
| EvCopy (dir : direction) (channel : Channel) (conn : Conn)
| EvConnClose (conn : Conn)
| EvChannelClose (channel : Channel).

(** A channel of strings: whether it was closed, and the messages its
    receiver was handed so far. The channel of the server is unbuffered,
    so a send completes when the session loop receives the message. *)
Record chan_state := { chan_closed : bool; delivered : list string }.

Record World := {
  chans : gmap chan_id chan_state;
  closed_conns : gset nat;
  closed_channels : gset nat;
  trace : list event
}.

Definition set_chans (f : gmap chan_id chan_state -> gmap chan_id chan_state)
  (w : World) : World :=
  {| chans := f (chans w); closed_conns := closed_conns w;
     closed_channels := closed_channels w; trace := trace w |}.

Definition set_closed_conns (f : gset nat -> gset nat) (w : World) : World :=
  {| chans := chans w; closed_conns := f (closed_conns w);
     closed_channels := closed_channels w; trace := trace w |}.

Definition set_closed_channels (f : gset nat -> gset nat) (w : World)
  : World :=
  {| chans := chans w; closed_conns := closed_conns w;
     closed_channels := f (closed_channels w); trace := trace w |}.

Definition record (e : event) (w : World) : World :=
  {| chans := chans w; closed_conns := closed_conns w;
     closed_channels := closed_channels w; trace := trace w ++ [e] |}.

Definition empty_world : World :=
  {| chans := ∅; closed_conns := ∅; closed_channels := ∅; trace := [] |}.

(** ** The monad of a goroutine *)

Inductive outcome (A : Type) : Type :=
| Ret (a : A)             (* the code ran to its end *)
| Panic (msg : string)    (* a run-time panic *)
| Blocked.                (* the goroutine waits for ever *)

Arguments Ret {A} a.
Arguments Panic {A} msg.
Arguments Blocked {A}.

Definition M (A : Type) : Type := World -> outcome A * World.

Definition ret {A} (a : A) : M A := fun w => (Ret a, w).

Definition bind {A B} (m : M A) (f : A -> M B) : M B :=
  fun w =>
    match m w with
    | (Ret a, w') => f a w'
    | (Panic msg, w') => (Panic msg, w')
    | (Blocked, w') => (Blocked, w')
    end.

Notation "x <- m ;; k" := (bind m (fun x => k))
  (at level 100, m at next level, right associativity).
Notation "m ;; k" := (bind m (fun _ => k))
  (at level 100, right associativity).

Definition panic {A} (msg : string) : M A := fun w => (Panic msg, w).
Definition block {A} : M A := fun w => (Blocked, w).
Definition emit (e : event) : M unit := fun w => (Ret tt, record e w).

(** [defer d] around [body]: [d] runs when [body] returns and when it
    panics; a panic of [body] goes on after [d], a panic of [d] replaces
    a normal return. *)
Definition defer {A} (d : M unit) (body : M A) : M A :=
  fun w =>
    match body w with
    | (Ret a, w') =>
        match d w' with
        | (Ret _, w'') => (Ret a, w'')
        | (Panic msg, w'') => (Panic msg, w'')
        | (Blocked, w'') => (Blocked, w'')
        end
    | (Panic msg, w') =>
        match d w' with
        | (Blocked, w'') => (Blocked, w'')
        | (_, w'') => (Panic msg, w'')
        end
    | (Blocked, w') => (Blocked, w')
    end.

(** A deferred closure that reads the named result [ok]. At a panic of
    the handler's body [ok] still holds [true], the value the type
    assertion on the messages channel gave it. *)
Definition defer_ok {B} (d : bool -> M unit) (body : M (bool * B))
  : M (bool * B) :=
  fun w =>
    match body w with
    | (Ret (ok, b), w') => defer (d ok) (ret (ok, b)) w'
    | (Panic msg, w') => defer (d true) (panic msg) w'
    | (Blocked, w') => (Blocked, w')
    end.

(** ** Channels of strings *)

(** [make(chan string)] *)
Definition make_chan : M chan_id :=
  fun w =>
    let c := fresh (dom (chans w)) in
    (Ret c,
     set_chans <[c := {| chan_closed := false; delivered := [] |}]> w).

(** [c <- msg]: a panic on a closed channel. *)
Definition send (c : chan_id) (msg : string) : M unit :=
  fun w =>
    match chans w !! c with
    | Some st =>
        if chan_closed st then (Panic "send on closed channel", w)
        else (Ret tt,
              record (EvSend c msg)
                (set_chans
                   <[c := {| chan_closed := false;
                             delivered := delivered st ++ [msg] |}]> w))
    | None => (Blocked, w)
    end.

(** [close(c)]: a panic on a closed channel. *)
Definition close (c : chan_id) : M unit :=
  fun w =>
    match chans w !! c with
    | Some st =>
        if chan_closed st then (Panic "close of closed channel", w)
        else (Ret tt,
              record (EvClose c)
                (set_chans
                   <[c := {| chan_closed := true;
                             delivered := delivered st |}]> w))
    | None => (Panic "close of nil channel", w)
    end.

(** The [go] statement. *)
Definition go (g : goroutine) : M unit := emit (EvGo g).

(** ** Sockets and logical channels *)

(** [net.Listen(network, address)] *)
Definition Listen (os : OS) (network address : string)
  : M (option Listener) :=
  emit (EvListen network address) ;; ret (os network address).

(** [conn.Close()]; closing again only returns an error, which the
    callers drop. *)
Definition Conn_Close (conn : Conn) : M unit :=
  fun w =>
    (Ret tt,
     record (EvConnClose conn)
       (set_closed_conns (fun s => {[conn_id conn]} ∪ s) w)).

(** [channel.Close()] on a [gossh.Channel]; a method call on the nil
    interface panics. *)
Definition Channel_Close (channel : option Channel) : M unit :=
  match channel with
  | Some ch =>
      fun w =>
        (Ret tt,
         record (EvChannelClose ch)
           (set_closed_channels (fun s => {[ch]} ∪ s) w))
  | None => panic "invalid memory address or nil pointer dereference"
  end.

(** How the peer answers the opening of a channel. *)
Inductive open_answer :=
| OpenOk (channel : Channel) (requests : Requests)
| OpenErr (err : string).

(** [sshConnection.OpenChannel(name, payload)], with the answer of the
    peer: the channel and its requests, or nil, nil and the error. *)
Definition OpenChannel (sshConnection : ServerConn) (name : string)
  (payload : list byte) (answer : open_answer)
  : M (option Channel * option Requests * option string) :=
  emit (EvOpenChannel sshConnection name payload) ;;
  match answer with
  | OpenOk channel requests => ret (Some channel, Some requests, None)
  | OpenErr err => ret (None, None, Some err)
  end.

(** The result of [io.Copy]. *)
Record copy_result := { written : Z; copy_err : option string }.

(** [io.Copy] between a channel and a socket. It returns when the
    source is at its end or an operation fails; [io] is what the two
    endpoints do by themselves, [None] when they never do either. On a
    closed endpoint reads and writes fail at once. *)
Definition io_Copy (dir : direction) (channel : Channel) (conn : Conn)
  (io : option copy_result) : M copy_result :=
  fun w =>
    if decide (conn_id conn ∈ closed_conns w ∨ channel ∈ closed_channels w)
    then (Ret {| written := 0; copy_err := Some "use of closed connection" |},
          record (EvCopy dir channel conn) w)
    else
      match io with
      | Some r => (Ret r, record (EvCopy dir channel conn) w)
      | None => (Blocked, record (EvCopy dir channel conn) w)
      end.

(** ** TCP helpers *)

(** allowTCPForwarding returns true if the given [port] is eligible for
    TCP forwarding *)
Definition allowTCPForwarding (port : Z) : bool :=
  (negb (port =? 22) && negb (port =? 80) && negb (port =? 443))
    && (1024 <? port) || (port =? 0).

(** tcpListen returns a listener which listens on the given port for
    incoming TCP connection *)
Definition tcpListen (os : OS) (addr : string) (port : Z)
  : M (option Listener) :=
  let addr := net.JoinHostPort addr (strconv.Itoa port) in
  Listen os "tcp" addr.

(** ** The server *)

(** connectionWrapper creates a new messaging channel for every new SSH
    connection and keeps it in the context. *)
Definition connectionWrapper (ctx : Context) : M Context :=
  c <- make_chan ;;
  ret (<[KeyString messageChannelName := VChanString c]> ctx).

(** The type assertion of [ctx.Value(ssh.ContextKeyConn)] to a pointer
    to [gossh.ServerConn], which panics on any other value. *)
Definition assert_ServerConn (v : option ctx_value) : M ServerConn :=
  match v with
  | Some (VServerConn c) => ret c
  | _ => panic "interface conversion"
  end.

(** What [Accept] gives the accept loop, one entry for each call; an
    accepted socket comes with the answer of the peer to the channel
    opened for it. *)
Inductive accept_result :=
| Accepted (conn : Conn) (answer : open_answer)
| AcceptFailed (err : net.error).

Definition newline : string := String (ascii_of_nat 10) EmptyString.

(** The two copy goroutines of a relay:
    [defer channel.Close(); defer conn.Close(); io.Copy(...)].
    The deferred calls run last in, first out. The method value of the
    first [defer] is taken when the statement runs, so that a nil
    channel panics there. *)
Definition run_copy (dir : direction) (channel : option Channel)
  (conn : Conn) (io : option copy_result) : M unit :=
  match channel with
  | None => Channel_Close None
  | Some ch =>
      defer (Channel_Close (Some ch))
        (defer (Conn_Close conn)
           (io_Copy dir ch conn io ;; ret tt))
  end.

(** The accept loop of [ssh_server.go], up to its [break]. *)
Fixpoint accept_loop (ln : Listener) (messages : chan_id)
  (sshConnection : ServerConn) (BindAddr : string) (destPort : Z)
  (script : list accept_result) : M unit :=
  match script with
  | [] => emit (EvAccept ln) ;; block
  | r :: script =>
      emit (EvAccept ln) ;;
      match r with
      | AcceptFailed err =>
          send messages
            ("error occurred while accepting connection" +:+ newline)
      | Accepted c answer =>
          let '(originAddr, originPortStr, _) :=
            net.SplitHostPort (net.TCPAddr_String (RemoteAddr c)) in
          let '(originPort, _) := strconv.Atoi originPortStr in
          let forward :=
            {| gossh.DestAddr := BindAddr;
               gossh.DestPort := uint32 destPort;
               gossh.OriginAddr := originAddr;
               gossh.OriginPort := uint32 originPort |} in
          let payload := gossh.Marshal_forward forward in
          send messages
            ("accepted connection from " +:+ originAddr +:+ ":"
               +:+ strconv.Itoa originPort) ;;
          r <- OpenChannel sshConnection
                 tcpipForwardIncomingConnectionRequest payload answer ;;
          let '(ch, reqs, err) := r in
          match err with
          | Some _ =>
              send messages "error occurred while forwarding connection" ;;
              Conn_Close c
          | None =>
              go (GoDiscardRequests reqs) ;;
              go (GoCopy ToChannel ch c) ;;
              go (GoCopy ToConn ch c) ;;
              accept_loop ln messages sshConnection BindAddr destPort script
          end
      end
  end.

(** [errors.Wrap(err, message).Error()] *)
Definition errors_Wrap (err : net.error) (message : string) : string :=
  message +:+ ": " +:+ net.Error err.

(** tcpipForwardConnectionHandler handles request cycle for a port
    forwarded connection. It listens for, accepts and handles connection
    processing. It returns the error it stops with. *)
Fixpoint tcpipForwardConnectionHandler (ln : Listener)
  (notify : string -> M unit)
  (newChannel : string -> string -> open_answer ->
                M (option Channel * option Requests * option string))
  (script : list accept_result) : M string :=
  match script with
  | [] => emit (EvAccept ln) ;; block
  | r :: script =>
      emit (EvAccept ln) ;;
      match r with
      | AcceptFailed err =>
          if net.op_error err && (net.Timeout err || net.Temporary err)
          then tcpipForwardConnectionHandler ln notify newChannel script
          else ret (errors_Wrap err "failed to accept new connection")
      | Accepted conn answer =>
          let '(addr, port, _) :=
            net.SplitHostPort (net.TCPAddr_String (RemoteAddr conn)) in
          notify ("accepted connection from " +:+ addr +:+ ":" +:+ port) ;;
          r <- newChannel addr port answer ;;
          let '(channel, requests, err) := r in
          match err with
          | Some e => notify ("error occurred while processing: " +:+ e)
          | None => ret tt
          end ;;
          go (GoDiscardRequests requests) ;;
          go (GoCopy ToChannel channel conn) ;;
          go (GoCopy ToConn channel conn) ;;
          tcpipForwardConnectionHandler ln notify newChannel script
      end
  end.

(** The helper [newChannel] of the request handler. *)
Definition newChannel (sshConnection : ServerConn) (BindAddr : string)
  (destPort : Z) (addr port : string) (answer : open_answer)
  : M (option Channel * option Requests * option string) :=
  let '(p, _) := strconv.Atoi port in
  let forward :=
    {| gossh.DestAddr := BindAddr; gossh.DestPort := uint32 destPort;
       gossh.OriginAddr := addr; gossh.OriginPort := uint32 p |} in
  OpenChannel sshConnection tcpipForwardIncomingConnectionRequest
    (gossh.Marshal_forward forward) answer.

(** The helper [notifier] of the request handler. *)
Definition notifier (messages : chan_id) (msg : string) : M unit :=
  send messages msg.

(** The goroutine that serves the listener. *)
Definition run_accept (rev : revision) (ln : Listener) (messages : chan_id)
  (sshConnection : ServerConn) (BindAddr : string) (destPort : Z)
  (script : list accept_result) : M unit :=
  match rev with
  | Inline =>
      accept_loop ln messages sshConnection BindAddr destPort script ;;
      close messages
  | Refactored =>
      defer (close messages)
        (err <- tcpipForwardConnectionHandler ln (notifier messages)
                  (newChannel sshConnection BindAddr destPort) script ;;
         send messages ("error occurred while processing: " +:+ err))
  end.

(** The admission check written in the request handler. *)
Definition accepts_port (BindPort : Z) : bool :=
  negb (BindPort =? 22) && negb (BindPort =? 80) && negb (BindPort =? 443).

(** tcpipForwardRequestHandler handles SSH request of type
    "tcpip-forward". The result is the pair [(ok, payload)]. *)
Definition tcpipForwardRequestHandler (rev : revision) (os : OS)
  (ctx : Context) (Payload : list byte) : M (bool * list byte) :=
  match ctx !! KeyString messageChannelName with
  | Some (VChanString messages) =>
      defer_ok (fun ok => if negb ok then close messages else ret tt)
        (sshConnection <- assert_ServerConn (ctx !! ContextKeyConn) ;;
         match gossh.Unmarshal_request Payload with
         | None => ret (false, [])
         | Some request =>
             let BindAddr := gossh.BindAddr request in
             let BindPort := gossh.BindPort request in
             if accepts_port BindPort then
               let addr := net.JoinHostPort BindAddr (strconv.Itoa BindPort) in
               ln <- Listen os "tcp" addr ;;
               match ln with
               | None => ret (false, [])
               | Some ln =>
                   send messages
                     ("forwarding traffic from "
                        +:+ net.TCPAddr_String (Addr ln)) ;;
                   let '(_, destPortStr, _) :=
                     net.SplitHostPort (net.TCPAddr_String (Addr ln)) in
                   let '(destPort, _) := strconv.Atoi destPortStr in
                   go (GoCloseOnDone ln) ;;
                   go (GoAccept rev ln messages sshConnection BindAddr
                         destPort) ;;
                   ret (true, gossh.Marshal_response (uint32 destPort))
               end
             else
               ret (false,
                    list_byte_of_string
                      ("forwarding " +:+ strconv.Itoa BindPort
                         +:+ " not supported yet"))
         end)
  | _ => ret (false, list_byte_of_string "internal server error")
  end.

(** ** Observations on worlds and traces *)

(** The channel exists and was not closed. *)
Definition chan_open (w : World) (c : chan_id) : bool :=
  match chans w !! c with
  | Some st => negb (chan_closed st)
  | None => false
  end.

(** The channel exists and was closed. *)
Definition chan_is_closed (w : World) (c : chan_id) : bool :=
  match chans w !! c with
  | Some st => chan_closed st
  | None => false
  end.

Definition is_listen (e : event) : bool :=
  match e with EvListen _ _ => true | _ => false end.

Definition is_send (e : event) : bool :=
  match e with EvSend _ _ => true | _ => false end.

Definition is_accept (e : event) : bool :=
  match e with EvAccept _ => true | _ => false end.

(** The events that a run from [w] to [w'] added to the trace. *)
Definition new_events (w w' : World) : list event :=
  drop (length (trace w)) (trace w').

(** The accept loop of the refactored source swallows exactly the
    errors of type [net.OpError] that are timeouts or temporary. *)
Definition transient (err : net.error) : bool :=
  net.op_error err && (net.Timeout err || net.Temporary err).

(** ** Predicates on strings *)

Fixpoint string_forall (P : ascii -> bool) (s : string) : bool :=
  match s with
  | EmptyString => true
  | String c s' => P c && string_forall P s'
  end.

Definition is_digit (c : ascii) : bool :=
  match strconv.digit_val c with Some _ => true | None => false end.

(** The byte [c] does not occur in [s]. *)
Definition lacks (s : string) (c : ascii) : Prop :=
  net.IndexByteString s c = -1.

(** ** Observations on the request handler *)

(** The text of the reply to a request for a reserved port. *)
Definition unsupported (BindPort : Z) : string :=
  "forwarding " +:+ strconv.Itoa BindPort +:+ " not supported yet".

(** The port that the handler reads back from the listener. *)
Definition bound_port (ln : Listener) : Z :=
  fst (strconv.Atoi (snd (fst (net.SplitHostPort
                                 (net.TCPAddr_String (Addr ln)))))).

(** The address that the handler asks the operating system for. *)
Definition bind_address (request : gossh.request) : string :=
  net.JoinHostPort (gossh.BindAddr request)
    (strconv.Itoa (gossh.BindPort request)).

(** The requests that the handler answers with [ok = false]: those that
    do not decode, those for a port it does not accept, and those whose
    bind fails. *)
Definition rejects (os : OS) (Payload : list byte) : bool :=
  match gossh.Unmarshal_request Payload with
  | None => true
  | Some request =>
      if accepts_port (gossh.BindPort request) then
        match os "tcp" (bind_address request) with
        | None => true
        | Some _ => false
        end
      else true
  end.

(** ** A connection as the server sets it up *)

(** The context of a connection after [connectionWrapper] and after the
    server has stored the connection in it, and the world in which only
    the messages channel of this connection exists. *)
Definition served_ctx : gmap ctx_key ctx_value :=
  <[ContextKeyConn := VServerConn 1%nat]>
    (<[KeyString messageChannelName := VChanString 0%nat]> ∅).

Definition served_world : World :=
  set_chans <[0%nat := {| chan_closed := false; delivered := [] |}]>
    empty_world.

(** An operating system that binds every address to a listener with the
    address [a], and one that binds nothing. *)
Definition granting (a : net.TCPAddr) : OS :=
  fun _ _ => Some {| ln_id := 0; Addr := a |}.

Definition refusing : OS := fun _ _ => None.

(** The request of a client for the port [p] of localhost. *)
Definition bind_request (p : Z) : list byte :=
  gossh.Marshal_request
    {| gossh.BindAddr := "localhost"; gossh.BindPort := p |}.

(** A socket accepted from 10.0.0.9:50000 whose channel the peer refuses
    to open, and a later one that the peer accepts. *)
Definition refused_conn : Conn :=
  {| conn_id := 5;
     RemoteAddr := {| net.IP := "10.0.0.9"; net.Port := 50000 |} |}.

Definition later_conn : Conn :=
  {| conn_id := 6;
     RemoteAddr := {| net.IP := "10.0.0.9"; net.Port := 50001 |} |}.

Definition example_listener : Listener :=
  {| ln_id := 0; Addr := {| net.IP := "127.0.0.1"; net.Port := 8080 |} |}.

Definition refused_script : list accept_result :=
  [ Accepted refused_conn (OpenErr "rejected");
    Accepted later_conn (OpenOk 3%nat 4%nat) ].

(** Two errors of [Accept]: a timeout, and the error after the listener
    was closed. *)
Definition timeout_error : net.error :=
  {| net.op_error := true; net.Timeout := true; net.Temporary := false;
     net.Error := "accept tcp 127.0.0.1:8080: i/o timeout" |}.

Definition closed_error : net.error :=
  {| net.op_error := true; net.Timeout := false; net.Temporary := false;
     net.Error :=
       "accept tcp 127.0.0.1:8080: use of closed network connection" |}.

Definition is_conn_close (e : event) : bool :=
  match e with EvConnClose _ => true | _ => false end.

(** The stated policy, taken as the admission check: the handler calls
    [net.Listen] exactly for the ports that [allowTCPForwarding]
    allows. *)
Definition admission_follows_policy : Prop :=
  forall (rev : revision) (os : OS) (ctx : gmap ctx_key ctx_value)
    (messages : chan_id) (sshConnection : ServerConn) (Payload : list byte)
    (request : gossh.request) (w : World),
    ctx !! KeyString messageChannelName = Some (VChanString messages) ->
    ctx !! ContextKeyConn = Some (VServerConn sshConnection) ->
    chan_open w messages = true ->
    gossh.Unmarshal_request Payload = Some request ->
    existsb is_listen
      (new_events w (snd (tcpipForwardRequestHandler rev os ctx Payload w)))
    = allowTCPForwarding (gossh.BindPort request).

(** ** The session of a connection *)

(** What a session handler wrote to the session, and the exit status it
    set, if any. *)
Record session := { output : string; exit_status : option Z }.

(** The line that the session shows for a message: [ssh_server.go]
    formats it with "%s\n", the other source with "server: %s\n". *)
Definition session_line (rev : revision) (msg : string) : string :=
  match rev with
  | Inline => msg +:+ newline
  | Refactored => "server: " +:+ msg +:+ newline
  end.

(** messageForwardingHandler reads from the channel under the key
    "messages" and writes the messages to the client session. The loop
    [for msg := range messages] is run on what the channel has handed
    to its receiver: it writes these messages, and then ends if the
    channel is closed and waits otherwise. Without a channel of strings
    in the context the handler writes an error and sets the exit status
    1, and then ranges over the nil channel, which never ends. *)
Definition messageForwardingHandler (rev : revision)
  (ctx : gmap ctx_key ctx_value) (w : World) : outcome unit * session :=
  match ctx !! KeyString "messages" with
  | Some (VChanString messages) =>
      match chans w !! messages with
      | Some st =>
          (if chan_closed st then Ret tt else Blocked,
           {| output := String.concat "" (map (session_line rev) (delivered st));
              exit_status := None |})
      | None => (Blocked, {| output := ""; exit_status := None |})
      end
  | _ =>
      (Blocked,
       {| output := "internal server error" +:+ newline;
          exit_status := Some 1 |})
  end.

(** ** Addresses of sockets *)

(** A TCP address as the operating system gives it: the text of the IP
    address has no bracket and the port has 16 bits. *)
Definition valid_addr (a : net.TCPAddr) : Prop :=
  lacks (net.IP a) "[" /\ lacks (net.IP a) "]" /\ 0 <= net.Port a <= 65535.

(** The entries of a script for which the accept loop starts a relay. *)
Definition relayed (r : accept_result) : Prop :=
  match r with
  | Accepted conn (OpenOk _ _) => valid_addr (RemoteAddr conn)
  | _ => False
  end.

(** The results of [Accept] after which the loop sends a notification:
    every one in [ssh_server.go], every one but the swallowed errors in
    the other source. *)
Definition notifies (rev : revision) (r : accept_result) : bool :=
  match r, rev with
  | Accepted _ _, _ => true
  | AcceptFailed _, Inline => true
  | AcceptFailed err, Refactored => negb (transient err)
  end.

(** The payload with which the loop opens the channel of an accepted
    socket. *)
Definition forwarded_payload (BindAddr : string) (destPort : Z)
  (conn : Conn) : list byte :=
  gossh.Marshal_forward
    {| gossh.DestAddr := BindAddr; gossh.DestPort := uint32 destPort;
       gossh.OriginAddr := net.IP (RemoteAddr conn);
       gossh.OriginPort := net.Port (RemoteAddr conn) |}.

(** The message that the goroutine of the accept loop sends when
    [Accept] fails for good. *)
Definition accept_failure_message (rev : revision) (err : net.error)
  : string :=
  match rev with
  | Inline => "error occurred while accepting connection" +:+ newline
  | Refactored =>
      "error occurred while processing: "
        +:+ "failed to accept new connection: " +:+ net.Error err
  end.

(** A world with the messages channels of two connections: channel 0 of
    [served_ctx], and channel 1 of another connection, which has been
    handed a notification. *)
Definition two_connections_world : World :=
  set_chans
    <[1%nat := {| chan_closed := false;
                  delivered := ["forwarding traffic from 127.0.0.1:8080"] |}]>
    served_world.

(** A world in which the messages channel of [served_ctx] was closed. *)
Definition closed_world : World :=
  set_chans <[0%nat := {| chan_closed := true; delivered := [] |}]>
    empty_world.

(** ** The port policy *)

Lemma allowTCPForwarding_true_iff (p : Z) :
  allowTCPForwarding p = true
  <-> p = 0 \/ (1024 < p /\ p <> 22 /\ p <> 80 /\ p <> 443).
Proof.
  unfold allowTCPForwarding.
  rewrite orb_true_iff, !andb_true_iff, !negb_true_iff, !Z.eqb_neq,
          Z.eqb_eq, Z.ltb_lt.
  tauto.
Qed.

(** C1: for every port, [allowTCPForwarding] answers true exactly when
    the port is 0, or is above 1024 and none of 22, 80 and 443; which is
    the same as being 0 or above 1024. It is a total function to
    [bool]. *)
Theorem allowTCPForwarding_spec (p : Z) :
  (allowTCPForwarding p = true
   <-> p = 0 \/ (1024 < p /\ p <> 22 /\ p <> 80 /\ p <> 443))
  /\ (allowTCPForwarding p = true <-> p = 0 \/ 1024 < p)
  /\ (allowTCPForwarding p = true \/ allowTCPForwarding p = false).
Proof.
  split; [apply allowTCPForwarding_true_iff |].
  split; [rewrite allowTCPForwarding_true_iff; lia |].
  destruct (allowTCPForwarding p); auto.
Qed.

(** ** Facts about strconv *)

Lemma digit_val_digit (d : Z) :
  0 <= d <= 9 -> strconv.digit_val (strconv.digit d) = Some d.
Proof.
  intros Hd.
  assert (d = 0 \/ d = 1 \/ d = 2 \/ d = 3 \/ d = 4 \/ d = 5 \/ d = 6
          \/ d = 7 \/ d = 8 \/ d = 9) as H by lia.
  repeat (destruct H as [-> | H]; [reflexivity |]).
  subst d. reflexivity.
Qed.

Lemma parse_digits_app (s1 s2 : string) (n : Z) :
  strconv.parse_digits n (s1 +:+ s2) =
  match strconv.parse_digits n s1 with
  | strconv.Parsed m => strconv.parse_digits m s2
  | strconv.BadSyntax => strconv.BadSyntax
  | strconv.Overflow => strconv.Overflow
  end.
Proof.
  revert n. induction s1 as [| c s1 IH]; intros n; simpl; [reflexivity |].
  destruct (strconv.digit_val c) as [d |]; [| reflexivity].
  destruct (strconv.uint64_max <? n * 10 + d); [reflexivity | apply IH].
Qed.

Lemma parse_digit (n d : Z) :
  0 <= d <= 9 -> 0 <= n * 10 + d <= strconv.uint64_max ->
  strconv.parse_digits n (String (strconv.digit d) EmptyString)
  = strconv.Parsed (n * 10 + d).
Proof.
  intros Hd Hn. cbn [strconv.parse_digits].
  rewrite digit_val_digit by exact Hd.
  destruct (Z.ltb_spec strconv.uint64_max (n * 10 + d)); [lia | reflexivity].
Qed.

Lemma parse_digits_digits (fuel : nat) (n : Z) :
  0 <= n < 10 ^ (Z.of_nat fuel + 1) ->
  n <= strconv.uint64_max ->
  strconv.parse_digits 0 (strconv.digits fuel n) = strconv.Parsed n.
Proof.
  revert n. induction fuel as [| fuel IH]; intros n Hn Hmax.
  - cbn [strconv.digits]. change (Z.of_nat 0 + 1) with 1 in Hn.
    rewrite Z.mod_small by lia.
    rewrite parse_digit by lia. f_equal; lia.
  - cbn [strconv.digits]. destruct (Z.ltb_spec n 10) as [Hlt | Hge].
    + rewrite parse_digit by lia. f_equal; lia.
    + pose proof (Z.div_mod n 10 ltac:(lia)) as Hdm.
      pose proof (Z.mod_pos_bound n 10 ltac:(lia)) as Hmod.
      assert (0 <= n / 10) as Hdiv by (apply Z.div_pos; lia).
      rewrite parse_digits_app, IH.
      * rewrite parse_digit by lia. f_equal; lia.
      * split; [exact Hdiv |].
        apply Z.div_lt_upper_bound; [lia |].
        replace (Z.of_nat (S fuel) + 1) with (Z.succ (Z.of_nat fuel + 1))
          in Hn by lia.
        rewrite Z.pow_succ_r in Hn by lia. lia.
      * lia.
Qed.

Lemma string_forall_app (P : ascii -> bool) (s1 s2 : string) :
  string_forall P (s1 +:+ s2) = string_forall P s1 && string_forall P s2.
Proof.
  induction s1 as [| c s1 IH]; simpl; [reflexivity |].
  rewrite IH. apply andb_assoc.
Qed.

Lemma is_digit_digit (d : Z) : 0 <= d <= 9 -> is_digit (strconv.digit d) = true.
Proof. intros Hd. unfold is_digit. rewrite digit_val_digit; auto. Qed.

Lemma digits_forall (fuel : nat) (n : Z) :
  0 <= n -> string_forall is_digit (strconv.digits fuel n) = true.
Proof.
  revert n. induction fuel as [| fuel IH]; intros n Hn.
  - simpl. rewrite is_digit_digit; [reflexivity |].
    pose proof (Z.mod_pos_bound n 10). lia.
  - cbn [strconv.digits]. destruct (Z.ltb_spec n 10).
    + simpl. rewrite is_digit_digit; [reflexivity | lia].
    + rewrite string_forall_app, IH by (apply Z.div_pos; lia).
      simpl. rewrite is_digit_digit; [reflexivity |].
      pose proof (Z.mod_pos_bound n 10). lia.
Qed.

Lemma digits_nonempty (fuel : nat) (n : Z) :
  strconv.digits fuel n <> EmptyString.
Proof.
  destruct fuel as [| fuel]; cbn [strconv.digits]; [discriminate |].
  destruct (n <? 10); [discriminate |].
  destruct (strconv.digits fuel (n / 10)); discriminate.
Qed.

Lemma string_forall_lacks (P : ascii -> bool) (s : string) (c : ascii) :
  string_forall P s = true -> P c = false -> lacks s c.
Proof.
  unfold lacks. intros Hs Hc. induction s as [| a s IH]; simpl in *;
    [reflexivity |].
  apply andb_true_iff in Hs as [Ha Hs].
  destruct (Ascii.eqb_spec a c) as [-> | _]; [congruence |].
  rewrite IH by assumption. reflexivity.
Qed.

Lemma Atoi_digit_string (s : string) (n : Z) :
  s <> EmptyString ->
  string_forall is_digit s = true ->
  strconv.parse_digits 0 s = strconv.Parsed n ->
  int_min <= n <= int_max ->
  strconv.Atoi s = (n, None).
Proof.
  intros Hne Hs Hp Hn. destruct s as [| c s]; [congruence |].
  unfold strconv.Atoi.
  assert (Ascii.eqb c "-" = false) as ->.
  { destruct (Ascii.eqb_spec c "-") as [-> | _]; [discriminate | reflexivity]. }
  assert (Ascii.eqb c "+" = false) as ->.
  { destruct (Ascii.eqb_spec c "+") as [-> | _]; [discriminate | reflexivity]. }
  rewrite Hp.
  destruct (Z.ltb_spec n int_min); [lia |].
  destruct (Z.ltb_spec int_max n); [lia | reflexivity].
Qed.

(** [Atoi] reads back what [Itoa] prints. *)
Lemma Atoi_Itoa (n : Z) :
  0 <= n <= int_max -> strconv.Atoi (strconv.Itoa n) = (n, None).
Proof.
  intros Hn. unfold strconv.Itoa.
  destruct (Z.ltb_spec n 0); [lia |].
  apply Atoi_digit_string.
  - apply digits_nonempty.
  - apply digits_forall; lia.
  - apply parse_digits_digits.
    + unfold int_max in Hn. simpl. lia.
    + unfold int_max, strconv.uint64_max in *. lia.
  - unfold int_min. lia.
Qed.

Lemma Itoa_digits (n : Z) :
  0 <= n -> string_forall is_digit (strconv.Itoa n) = true.
Proof.
  intros Hn. unfold strconv.Itoa.
  destruct (Z.ltb_spec n 0); [lia |]. apply digits_forall; lia.
Qed.

(** ** Facts about the host and port functions of net *)

Lemma IndexByteString_range (s : string) (c : ascii) :
  net.IndexByteString s c = -1 \/ 0 <= net.IndexByteString s c.
Proof.
  induction s as [| a s IH]; simpl; [left; reflexivity |].
  destruct (Ascii.eqb a c); [right; lia |].
  destruct (Z.ltb_spec (net.IndexByteString s c) 0); [left; lia | right; lia].
Qed.

Lemma append_nil_l (s : string) : EmptyString +:+ s = s.
Proof. reflexivity. Qed.

Lemma append_cons (a : ascii) (s1 s2 : string) :
  String a s1 +:+ s2 = String a (s1 +:+ s2).
Proof. reflexivity. Qed.

Ltac unfold_append := rewrite ?append_cons, ?append_nil_l.

Lemma IndexByteString_app (s1 s2 : string) (c : ascii) :
  lacks s1 c ->
  net.IndexByteString (s1 +:+ s2) c =
  if 0 <=? net.IndexByteString s2 c
  then net.len s1 + net.IndexByteString s2 c else -1.
Proof.
  unfold lacks, net.len. induction s1 as [| a s1 IH]; intros H1; unfold_append.
  - simpl. destruct (IndexByteString_range s2 c) as [-> | H]; [reflexivity |].
    destruct (Z.leb_spec 0 (net.IndexByteString s2 c)); lia.
  - simpl in *. destruct (Ascii.eqb a c); [lia |].
    destruct (Z.ltb_spec (net.IndexByteString s1 c) 0) as [Hneg | Hpos];
      [| lia].
    rewrite IH by (destruct (IndexByteString_range s1 c); lia).
    destruct (Z.leb_spec 0 (net.IndexByteString s2 c)); [| reflexivity].
    destruct (Z.ltb_spec
                (Z.of_nat (String.length s1) + net.IndexByteString s2 c) 0);
      lia.
Qed.

Lemma lacks_app (s1 s2 : string) (c : ascii) :
  lacks s1 c -> lacks s2 c -> lacks (s1 +:+ s2) c.
Proof.
  intros H1 H2. unfold lacks. rewrite IndexByteString_app by assumption.
  rewrite H2. reflexivity.
Qed.

Lemma lacks_cons (a c : ascii) (s : string) :
  a <> c -> lacks s c -> lacks (String a s) c.
Proof.
  unfold lacks. intros Ha Hs. simpl.
  destruct (Ascii.eqb_spec a c); [contradiction |]. rewrite Hs. reflexivity.
Qed.

Lemma lacks_nil (c : ascii) : lacks EmptyString c.
Proof. reflexivity. Qed.

Lemma last_lacks (s : string) (c : ascii) : lacks s c -> net.last s c = -1.
Proof.
  unfold lacks. induction s as [| a s IH]; simpl; [reflexivity |].
  destruct (Ascii.eqb a c); [lia |].
  destruct (Z.ltb_spec (net.IndexByteString s c) 0) as [Hneg | Hpos]; [| lia].
  intros _. rewrite IH by (destruct (IndexByteString_range s c); lia).
  reflexivity.
Qed.

Lemma last_app (s1 s2 : string) (c : ascii) :
  0 <= net.last s2 c ->
  net.last (s1 +:+ s2) c = net.len s1 + net.last s2 c.
Proof.
  unfold net.len. intros H2.
  induction s1 as [| a s1 IH]; unfold_append; simpl; [lia |].
  rewrite IH.
  destruct (Z.leb_spec 0 (Z.of_nat (String.length s1) + net.last s2 c)); lia.
Qed.

Lemma last_here (s : string) (c : ascii) :
  lacks s c -> net.last (String c s) c = 0.
Proof.
  intros H. simpl. rewrite (last_lacks _ _ H), Ascii.eqb_refl. reflexivity.
Qed.

Lemma length_app (s1 s2 : string) :
  String.length (s1 +:+ s2) = (String.length s1 + String.length s2)%nat.
Proof. induction s1; unfold_append; simpl; congruence. Qed.

Lemma substring_all (s : string) : substring 0 (String.length s) s = s.
Proof. induction s; simpl; congruence. Qed.

Lemma substring_prefix (s1 s2 : string) :
  substring 0 (String.length s1) (s1 +:+ s2) = s1.
Proof.
  induction s1 as [| a s1 IH]; unfold_append; simpl;
    [destruct s2; reflexivity | congruence].
Qed.

Lemma substring_skip (s1 s2 : string) (n m : nat) :
  substring (String.length s1 + n) m (s1 +:+ s2) = substring n m s2.
Proof. induction s1; unfold_append; simpl; auto. Qed.

Lemma slice_prefix (s1 s2 : string) :
  net.slice (s1 +:+ s2) 0 (net.len s1) = s1.
Proof.
  unfold net.slice, net.len. rewrite Z.sub_0_r, Nat2Z.id. apply substring_prefix.
Qed.

Lemma slice_suffix (s1 s2 : string) :
  net.slice (s1 +:+ s2) (net.len s1) (net.len (s1 +:+ s2)) = s2.
Proof.
  unfold net.slice, net.len. rewrite length_app, Nat2Z.id.
  replace (Z.to_nat _) with (String.length s2) by lia.
  rewrite <- (Nat.add_0_r (String.length s1)), substring_skip.
  apply substring_all.
Qed.

Lemma append_assoc (s1 s2 s3 : string) : (s1 +:+ s2) +:+ s3 = s1 +:+ s2 +:+ s3.
Proof. induction s1; unfold_append; simpl; congruence. Qed.

Lemma slice_middle (s1 s2 s3 : string) :
  net.slice (s1 +:+ s2 +:+ s3) (net.len s1) (net.len s1 + net.len s2) = s2.
Proof.
  unfold net.slice, net.len. rewrite Nat2Z.id.
  replace (Z.to_nat _) with (String.length s2) by lia.
  rewrite <- (Nat.add_0_r (String.length s1)), substring_skip.
  apply substring_prefix.
Qed.

Lemma lacks_head (a c : ascii) (s : string) :
  lacks (String a s) c -> Ascii.eqb a c = false.
Proof.
  unfold lacks. simpl. destruct (Ascii.eqb a c); [discriminate | reflexivity].
Qed.

Lemma lacks_tail (a c : ascii) (s : string) :
  lacks (String a s) c -> lacks s c.
Proof.
  unfold lacks. simpl. destruct (Ascii.eqb a c); [discriminate |].
  destruct (IndexByteString_range s c) as [-> | H]; [reflexivity |].
  destruct (Z.ltb_spec (net.IndexByteString s c) 0); lia.
Qed.


Lemma len_app (s1 s2 : string) : net.len (s1 +:+ s2) = net.len s1 + net.len s2.
Proof. unfold net.len. rewrite length_app. lia. Qed.

Lemma len_nonneg (s : string) : 0 <= net.len s.
Proof. unfold net.len. lia. Qed.

Lemma SplitHostPort_plain (host port : string) :
  lacks host ":" -> lacks host "[" -> lacks host "]" ->
  lacks port ":" -> lacks port "[" -> lacks port "]" ->
  net.SplitHostPort (host +:+ ":" +:+ port) = (host, port, None).
Proof.
  intros Hhcol Hho Hhc Hpc Hpo Hpcl.
  change (":" +:+ port) with (String ":" port).
  unfold net.SplitHostPort.
  rewrite last_app; rewrite last_here by assumption; [| lia].
  rewrite Z.add_0_r.
  destruct (Z.ltb_spec (net.len host) 0) as [Hneg | _];
    [pose proof (len_nonneg host); lia |].
  assert (match host +:+ String ":" port with
          | EmptyString => false
          | String c _ => Ascii.eqb c "["
          end = false) as ->.
  { destruct host as [| a host]; unfold_append; [reflexivity |].
    eapply lacks_head; eassumption. }
  rewrite slice_prefix, Hhcol.
  change (0 <=? -1) with false. cbv iota.
  unfold net.slice at 1 2. rewrite !Z.sub_0_r. unfold net.len at 1 2.
  rewrite !Nat2Z.id. change (Z.to_nat 0) with 0%nat. rewrite !substring_all.
  rewrite (lacks_app host (String ":" port) "[")
    by (auto using lacks_cons || (apply lacks_cons; [discriminate | assumption])).
  rewrite (lacks_app host (String ":" port) "]")
    by (auto using lacks_cons || (apply lacks_cons; [discriminate | assumption])).
  change (0 <=? -1) with false. cbv iota.
  f_equal. f_equal.
  change (String ":" port) with (":" +:+ port).
  rewrite <- append_assoc.
  replace (net.len host + 1) with (net.len (host +:+ ":"))
    by (rewrite len_app; reflexivity).
  apply slice_suffix.
Qed.

Lemma IndexByteString_here (s : string) (c : ascii) :
  net.IndexByteString (String c s) c = 0.
Proof. simpl. rewrite Ascii.eqb_refl. reflexivity. Qed.

Lemma SplitHostPort_bracketed (host port : string) :
  lacks host "[" -> lacks host "]" ->
  lacks port ":" -> lacks port "[" -> lacks port "]" ->
  net.SplitHostPort ("[" +:+ host +:+ "]:" +:+ port) = (host, port, None).
Proof.
  intros Hho Hhc Hpc Hpo Hpcl.
  pose proof (len_nonneg host) as Hlh. pose proof (len_nonneg port) as Hlp.
  remember ("[" +:+ host +:+ "]:" +:+ port) as hp eqn:Ehp.
  assert (net.len hp = net.len host + 3 + net.len port) as Hlen.
  { subst hp. rewrite !len_app. change (net.len "[") with 1.
    change (net.len "]:") with 2. lia. }
  assert (net.last hp ":" = net.len host + 2) as Hlast.
  { subst hp. change ("]:" +:+ port) with ("]" +:+ String ":" port).
    rewrite <- (append_assoc host), <- append_assoc.
    rewrite last_app; rewrite last_here by assumption; [| lia].
    rewrite !len_app. change (net.len "[") with 1. change (net.len "]") with 1.
    lia. }
  assert (net.IndexByteString hp "]" = net.len host + 1) as Hend.
  { subst hp. change ("]:" +:+ port) with (String "]" (":" +:+ port)).
    rewrite <- append_assoc, IndexByteString_app.
    - rewrite IndexByteString_here. change (0 <=? 0) with true. cbv iota.
      rewrite len_app. change (net.len "[") with 1. lia.
    - apply lacks_cons; [discriminate | assumption]. }
  assert (net.slice hp 1 (net.len host + 1) = host) as Hhost.
  { subst hp. replace (net.len host + 1) with (net.len "[" + net.len host)
      by (change (net.len "[") with 1; lia).
    apply (slice_middle "[" host). }
  assert (net.slice hp 1 (net.len hp) = host +:+ "]:" +:+ port) as Hj.
  { subst hp. apply (slice_suffix "["). }
  assert (net.slice hp (net.len host + 1 + 1) (net.len hp) = ":" +:+ port)
    as Hk.
  { subst hp. change ("]:" +:+ port) with ("]" +:+ ":" +:+ port).
    rewrite <- (append_assoc host), <- (append_assoc "[").
    replace (net.len host + 1 + 1) with (net.len (("[" +:+ host) +:+ "]")).
    - apply slice_suffix.
    - rewrite !len_app. change (net.len "[") with 1.
      change (net.len "]") with 1. lia. }
  assert (net.slice hp (net.len host + 2 + 1) (net.len hp) = port) as Hport.
  { subst hp. rewrite <- (append_assoc host), <- (append_assoc "[").
    replace (net.len host + 2 + 1) with (net.len (("[" +:+ host) +:+ "]:")).
    - apply slice_suffix.
    - rewrite !len_app. change (net.len "[") with 1.
      change (net.len "]:") with 2. lia. }
  unfold net.SplitHostPort. rewrite Hlast, Hend.
  destruct (Z.ltb_spec (net.len host + 2) 0); [lia |].
  assert (match hp with
          | EmptyString => false
          | String c _ => Ascii.eqb c "["
          end = true) as -> by (subst hp; reflexivity).
  destruct (Z.ltb_spec (net.len host + 1) 0); [lia |].
  destruct (Z.eqb_spec (net.len host + 1 + 1) (net.len hp)); [lia |].
  destruct (Z.eqb_spec (net.len host + 1 + 1) (net.len host + 2)); [| lia].
  rewrite Hhost, Hj, Hk, Hport.
  rewrite (lacks_app host ("]:" +:+ port) "[")
    by (try assumption; repeat (apply lacks_cons; [discriminate |]);
        assumption).
  change (0 <=? -1) with false. cbv iota.
  rewrite (lacks_cons ":" "]" port) by (assumption || discriminate).
  reflexivity.
Qed.

(** [SplitHostPort] takes apart what [JoinHostPort] puts together. *)
Lemma SplitHostPort_JoinHostPort (host port : string) :
  lacks host "[" -> lacks host "]" ->
  lacks port ":" -> lacks port "[" -> lacks port "]" ->
  net.SplitHostPort (net.JoinHostPort host port) = (host, port, None).
Proof.
  intros Hho Hhc Hpc Hpo Hpcl. unfold net.JoinHostPort.
  destruct (IndexByteString_range host ":") as [Hcol | Hcol].
  - rewrite Hcol. change (0 <=? -1) with false. cbv iota.
    apply SplitHostPort_plain; assumption.
  - destruct (Z.leb_spec 0 (net.IndexByteString host ":")); [| lia].
    apply SplitHostPort_bracketed; assumption.
Qed.

(** ** Facts about the wire encoding *)

Lemma Z_of_byte_of_Z (v : Z) :
  gossh.Z_of_byte (gossh.byte_of_Z v) = v mod 2 ^ 8.
Proof.
  unfold gossh.Z_of_byte, gossh.byte_of_Z.
  change (2 ^ 8) with 256.
  pose proof (Z.mod_pos_bound v 256 ltac:(lia)) as Hb.
  destruct (Byte.of_N (Z.to_N (v mod 256))) as [b |] eqn:E.
  - apply Byte.to_of_N in E. simpl. rewrite E. lia.
  - apply Byte.of_N_None_iff in E. lia.
Qed.

Lemma testbit_shiftr_sub (v i k : Z) :
  0 <= k ->
  Z.testbit (Z.shiftr v k) (i - k) = if i <? k then false else Z.testbit v i.
Proof.
  intros Hk. destruct (Z.ltb_spec i k).
  - apply Z.testbit_neg_r. lia.
  - rewrite Z.shiftr_spec by lia. f_equal. lia.
Qed.

Lemma Uint32_PutUint32 (v : Z) :
  0 <= v < 2 ^ 32 ->
  gossh.parseUint32 (gossh.PutUint32 v) = Some (v, []).
Proof.
  intros Hv. unfold gossh.PutUint32, gossh.parseUint32, gossh.Uint32.
  rewrite !Z_of_byte_of_Z. f_equal. f_equal.
  apply Z.bits_inj'. intros i Hi.
  rewrite !Z.lor_spec, !Z.shiftl_spec, !Z.testbit_mod_pow2 by lia.
  rewrite !testbit_shiftr_sub by lia.
  assert (32 <= i -> Z.testbit v i = false) as Hhigh.
  { intros H. apply (Z.bounded_iff_bits_nonneg 32 v); lia. }
  destruct (Z.ltb_spec i 8), (Z.ltb_spec (i - 8) 8), (Z.ltb_spec (i - 16) 8),
    (Z.ltb_spec (i - 24) 8), (Z.ltb_spec i 16), (Z.ltb_spec i 24);
    try lia; simpl; rewrite ?orb_false_r; try reflexivity.
  symmetry. apply Hhigh. lia.
Qed.

Lemma Unmarshal_Marshal_response (BindPort : Z) :
  0 <= BindPort < 2 ^ 32 ->
  gossh.Unmarshal_response (gossh.Marshal_response BindPort) = Some BindPort.
Proof.
  intros H. unfold gossh.Unmarshal_response, gossh.Marshal_response.
  rewrite Uint32_PutUint32 by assumption. reflexivity.
Qed.

(** ** Facts about channels of strings *)

Lemma send_open (w : World) (c : chan_id) (msg : string) :
  chan_open w c = true ->
  exists w', send c msg w = (Ret tt, w')
    /\ trace w' = trace w ++ [EvSend c msg]
    /\ chan_open w' c = true
    /\ closed_conns w' = closed_conns w
    /\ closed_channels w' = closed_channels w.
Proof.
  unfold chan_open, send. intros H.
  destruct (chans w !! c) as [st |] eqn:E; [| discriminate].
  destruct (chan_closed st); [discriminate |].
  eexists. split; [reflexivity |]. simpl.
  rewrite lookup_insert_eq. auto.
Qed.

Lemma close_open (w : World) (c : chan_id) :
  chan_open w c = true ->
  exists w', close c w = (Ret tt, w')
    /\ trace w' = trace w ++ [EvClose c]
    /\ chan_is_closed w' c = true
    /\ closed_conns w' = closed_conns w
    /\ closed_channels w' = closed_channels w.
Proof.
  unfold chan_open, chan_is_closed, close. intros H.
  destruct (chans w !! c) as [st |] eqn:E; [| discriminate].
  destruct (chan_closed st); [discriminate |].
  eexists. split; [reflexivity |]. simpl.
  rewrite lookup_insert_eq. auto.
Qed.

Lemma close_closed (w : World) (c : chan_id) :
  chan_is_closed w c = true ->
  close c w = (Panic "close of closed channel", w).
Proof.
  unfold chan_is_closed, close. intros H.
  destruct (chans w !! c) as [st |] eqn:E; [| discriminate].
  rewrite H. reflexivity.
Qed.

Lemma send_closed (w : World) (c : chan_id) (msg : string) :
  chan_is_closed w c = true ->
  send c msg w = (Panic "send on closed channel", w).
Proof.
  unfold chan_is_closed, send. intros H.
  destruct (chans w !! c) as [st |] eqn:E; [| discriminate].
  rewrite H. reflexivity.
Qed.

Lemma new_events_app (w w' : World) (evs : list event) :
  trace w' = trace w ++ evs -> new_events w w' = evs.
Proof. intros H. unfold new_events. rewrite H. apply drop_app_length. Qed.

Lemma defer_close_open {A} (w : World) (c : chan_id) (a : A) :
  chan_open w c = true ->
  exists w', defer (close c) (ret a) w = (Ret a, w')
    /\ trace w' = trace w ++ [EvClose c]
    /\ chan_is_closed w' c = true.
Proof.
  intros H. destruct (close_open w c H) as (w' & Hc & Ht & Hcl & _).
  exists w'. unfold defer, ret. rewrite Hc. auto.
Qed.

Lemma defer_close_closed {A} (w : World) (c : chan_id) (a : A) :
  chan_is_closed w c = true ->
  defer (close c) (ret a) w = (Panic "close of closed channel", w).
Proof.
  intros H. unfold defer, ret. rewrite close_closed by assumption. reflexivity.
Qed.

(** ** The request handler *)

Section handler.
Variables (rev : revision) (os : OS) (ctx : gmap ctx_key ctx_value).
Variables (messages : chan_id) (sshConnection : ServerConn).
Hypothesis Hmessages :
  ctx !! KeyString messageChannelName = Some (VChanString messages).
Hypothesis Hconn : ctx !! ContextKeyConn = Some (VServerConn sshConnection).

(** A request that does not decode. *)
Lemma handler_undecodable (Payload : list byte) (w : World) :
  gossh.Unmarshal_request Payload = None ->
  tcpipForwardRequestHandler rev os ctx Payload w =
  defer (close messages) (ret (false, [])) w.
Proof.
  intros Hdec. unfold tcpipForwardRequestHandler.
  rewrite Hmessages, Hconn. unfold defer_ok, bind. simpl.
  rewrite Hdec. reflexivity.
Qed.

(** A request for one of the ports that the handler does not accept. *)
Lemma handler_reserved (Payload : list byte) (request : gossh.request)
  (w : World) :
  gossh.Unmarshal_request Payload = Some request ->
  accepts_port (gossh.BindPort request) = false ->
  tcpipForwardRequestHandler rev os ctx Payload w =
  defer (close messages)
    (ret (false, list_byte_of_string (unsupported (gossh.BindPort request))))
    w.
Proof.
  intros Hdec Hacc. unfold tcpipForwardRequestHandler.
  rewrite Hmessages, Hconn. unfold defer_ok, bind. simpl.
  rewrite Hdec, Hacc. reflexivity.
Qed.

(** A request for an accepted port whose bind fails. *)
Lemma handler_bind_failure (Payload : list byte) (request : gossh.request)
  (w : World) :
  gossh.Unmarshal_request Payload = Some request ->
  accepts_port (gossh.BindPort request) = true ->
  os "tcp" (bind_address request) = None ->
  tcpipForwardRequestHandler rev os ctx Payload w =
  defer (close messages) (ret (false, []))
    (record (EvListen "tcp" (bind_address request)) w).
Proof.
  intros Hdec Hacc Hos. unfold tcpipForwardRequestHandler.
  rewrite Hmessages, Hconn. unfold defer_ok, bind. simpl.
  rewrite Hdec, Hacc. fold (bind_address request). simpl. rewrite Hos.
  reflexivity.
Qed.

(** A request for an accepted port whose bind succeeds, on a connection whose
    messages channel is open. *)
Lemma handler_bind_success (Payload : list byte) (request : gossh.request)
  (ln : Listener) (w : World) :
  gossh.Unmarshal_request Payload = Some request ->
  accepts_port (gossh.BindPort request) = true ->
  os "tcp" (bind_address request) = Some ln ->
  chan_open w messages = true ->
  exists w',
    tcpipForwardRequestHandler rev os ctx Payload w =
    (Ret (true, gossh.Marshal_response (uint32 (bound_port ln))), w')
    /\ trace w' =
       trace w ++
         [ EvListen "tcp" (bind_address request);
           EvSend messages
             ("forwarding traffic from " +:+ net.TCPAddr_String (Addr ln));
           EvGo (GoCloseOnDone ln);
           EvGo (GoAccept rev ln messages sshConnection
                   (gossh.BindAddr request) (bound_port ln)) ]
    /\ chan_open w' messages = true.
Proof.
  intros Hdec Hacc Hos Hopen.
  destruct (send_open (record (EvListen "tcp" (bind_address request)) w)
              messages
              ("forwarding traffic from " +:+ net.TCPAddr_String (Addr ln))
              Hopen)
    as (w1 & Hsend & Htr & Hopen1 & _).
  unfold tcpipForwardRequestHandler.
  rewrite Hmessages, Hconn. unfold defer_ok, bind. simpl.
  rewrite Hdec, Hacc. fold (bind_address request). simpl. rewrite Hos.
  rewrite Hsend. unfold bound_port.
  destruct (net.SplitHostPort (net.TCPAddr_String (Addr ln)))
    as [[host destPortStr] err].
  cbn [fst snd]. destruct (strconv.Atoi destPortStr) as [destPort err'].
  unfold ret. simpl. eexists. split; [reflexivity |]. simpl. rewrite Htr. simpl.
  split; [rewrite <- !app_assoc; reflexivity | exact Hopen1].
Qed.
End handler.

Lemma Itoa_lacks (n : Z) (c : ascii) :
  0 <= n -> is_digit c = false -> lacks (strconv.Itoa n) c.
Proof.
  intros Hn Hc. eapply string_forall_lacks; [apply Itoa_digits, Hn | exact Hc].
Qed.

(** The handler reads the port of the listener back from the text of
    its address. *)
Lemma bound_port_listener (ln : Listener) :
  lacks (net.IP (Addr ln)) "[" -> lacks (net.IP (Addr ln)) "]" ->
  0 <= net.Port (Addr ln) <= 65535 ->
  bound_port ln = net.Port (Addr ln).
Proof.
  intros Ho Hc Hp. unfold bound_port, net.TCPAddr_String.
  rewrite SplitHostPort_JoinHostPort
    by first [assumption | apply Itoa_lacks; [lia | reflexivity]].
  cbn [fst snd]. rewrite Atoi_Itoa by (unfold int_max; lia). reflexivity.
Qed.

(** ** Rejected requests *)

(** C3: a decoded request for port 22, 80 or 443 is answered with
    [ok = false] and a text that names the port; the handler does not
    call [net.Listen], its only effect is to close the messages
    channel. *)
Theorem reserved_port_rejected (rev : revision) (os : OS)
  (ctx : gmap ctx_key ctx_value) (messages : chan_id)
  (sshConnection : ServerConn) (Payload : list byte)
  (request : gossh.request) (w : World) :
  ctx !! KeyString messageChannelName = Some (VChanString messages) ->
  ctx !! ContextKeyConn = Some (VServerConn sshConnection) ->
  chan_open w messages = true ->
  gossh.Unmarshal_request Payload = Some request ->
  gossh.BindPort request = 22 \/ gossh.BindPort request = 80
    \/ gossh.BindPort request = 443 ->
  exists w',
    tcpipForwardRequestHandler rev os ctx Payload w =
    (Ret (false,
          list_byte_of_string
            ("forwarding " +:+ strconv.Itoa (gossh.BindPort request)
               +:+ " not supported yet")), w')
    /\ strconv.Itoa (gossh.BindPort request) =
       (if gossh.BindPort request =? 22 then "22"
        else if gossh.BindPort request =? 80 then "80" else "443")
    /\ trace w' = trace w ++ [EvClose messages]
    /\ existsb is_listen (new_events w w') = false.
Proof.
  intros Hm Hc Hopen Hdec Hport.
  assert (accepts_port (gossh.BindPort request) = false) as Hacc
    by (destruct Hport as [-> | [-> | ->]]; reflexivity).
  rewrite (handler_reserved rev os ctx messages sshConnection Hm Hc
             Payload request w Hdec Hacc).
  destruct (defer_close_open w messages
              (false, list_byte_of_string
                        (unsupported (gossh.BindPort request))) Hopen)
    as (w' & Hrun & Htr & _).
  exists w'. split; [exact Hrun |]. split.
  - destruct Hport as [-> | [-> | ->]]; reflexivity.
  - split; [exact Htr |]. rewrite (new_events_app _ _ _ Htr). reflexivity.
Qed.

(** C5: a payload that does not decode is answered with [ok = false]
    and an empty payload; the handler does not call [net.Listen], its
    only effect is to close the messages channel. *)
Theorem undecodable_payload_rejected (rev : revision) (os : OS)
  (ctx : gmap ctx_key ctx_value) (messages : chan_id)
  (sshConnection : ServerConn) (Payload : list byte) (w : World) :
  ctx !! KeyString messageChannelName = Some (VChanString messages) ->
  ctx !! ContextKeyConn = Some (VServerConn sshConnection) ->
  chan_open w messages = true ->
  gossh.Unmarshal_request Payload = None ->
  exists w',
    tcpipForwardRequestHandler rev os ctx Payload w = (Ret (false, []), w')
    /\ trace w' = trace w ++ [EvClose messages]
    /\ existsb is_listen (new_events w w') = false.
Proof.
  intros Hm Hc Hopen Hdec.
  rewrite (handler_undecodable rev os ctx messages sshConnection Hm Hc
             Payload w Hdec).
  destruct (defer_close_open w messages (false, @nil byte) Hopen)
    as (w' & Hrun & Htr & _).
  exists w'. split; [exact Hrun |].
  split; [exact Htr |]. rewrite (new_events_app _ _ _ Htr). reflexivity.
Qed.

(** ** Successful binds *)

(** C4: when a request for port 0 is bound, the handler answers
    [ok = true] and the reply carries the port of the listener, which
    the handler reads back from the address of the listener. *)
Theorem ephemeral_port_reply (rev : revision) (os : OS)
  (ctx : gmap ctx_key ctx_value) (messages : chan_id)
  (sshConnection : ServerConn) (Payload : list byte)
  (request : gossh.request) (ln : Listener) (w : World) :
  ctx !! KeyString messageChannelName = Some (VChanString messages) ->
  ctx !! ContextKeyConn = Some (VServerConn sshConnection) ->
  chan_open w messages = true ->
  gossh.Unmarshal_request Payload = Some request ->
  gossh.BindPort request = 0 ->
  os "tcp" (net.JoinHostPort (gossh.BindAddr request) "0") = Some ln ->
  lacks (net.IP (Addr ln)) "[" -> lacks (net.IP (Addr ln)) "]" ->
  0 <= net.Port (Addr ln) <= 65535 ->
  exists w',
    tcpipForwardRequestHandler rev os ctx Payload w =
    (Ret (true, gossh.Marshal_response (net.Port (Addr ln))), w')
    /\ gossh.Unmarshal_response (gossh.Marshal_response (net.Port (Addr ln)))
       = Some (net.Port (Addr ln))
    /\ bound_port ln = net.Port (Addr ln).
Proof.
  intros Hm Hc Hopen Hdec Hzero Hos Hbo Hbc Hport.
  assert (bind_address request = net.JoinHostPort (gossh.BindAddr request) "0")
    as Haddr by (unfold bind_address; rewrite Hzero; reflexivity).
  rewrite <- Haddr in Hos.
  destruct (handler_bind_success rev os ctx messages sshConnection Hm Hc
              Payload request ln w Hdec
              ltac:(rewrite Hzero; reflexivity) Hos Hopen)
    as (w' & Hrun & _).
  rewrite (bound_port_listener ln Hbo Hbc Hport) in Hrun.
  exists w'. split.
  - rewrite Hrun. unfold uint32. rewrite Z.mod_small by lia. reflexivity.
  - split; [apply Unmarshal_Marshal_response; lia |].
    apply bound_port_listener; assumption.
Qed.

(** ** The admission check and the port policy *)

Lemma accepts_port_spec (p : Z) :
  accepts_port p = true <-> p <> 22 /\ p <> 80 /\ p <> 443.
Proof.
  unfold accepts_port. rewrite !andb_true_iff, !negb_true_iff, !Z.eqb_neq. tauto.
Qed.

Lemma policy_accepts_port (p : Z) :
  allowTCPForwarding p = true -> accepts_port p = true.
Proof.
  rewrite allowTCPForwarding_true_iff, accepts_port_spec. lia.
Qed.

Lemma chan_open_record (e : event) (w : World) (c : chan_id) :
  chan_open (record e w) c = chan_open w c.
Proof. reflexivity. Qed.

Lemma chan_is_closed_record (e : event) (w : World) (c : chan_id) :
  chan_is_closed (record e w) c = chan_is_closed w c.
Proof. reflexivity. Qed.

(** What the handler does with a request that it rejects, on a
    connection whose messages channel is open. *)
Lemma handler_rejects_open (rev : revision) (os : OS)
  (ctx : gmap ctx_key ctx_value) (messages : chan_id)
  (sshConnection : ServerConn) (Payload : list byte) (w : World) :
  ctx !! KeyString messageChannelName = Some (VChanString messages) ->
  ctx !! ContextKeyConn = Some (VServerConn sshConnection) ->
  chan_open w messages = true ->
  rejects os Payload = true ->
  exists p w' evs,
    tcpipForwardRequestHandler rev os ctx Payload w = (Ret (false, p), w')
    /\ chan_is_closed w' messages = true
    /\ trace w' = trace w ++ evs ++ [EvClose messages]
    /\ existsb is_send evs = false /\ existsb is_accept evs = false.
Proof.
  intros Hm Hc Hopen Hrej. unfold rejects in Hrej.
  destruct (gossh.Unmarshal_request Payload) as [request |] eqn:Hdec.
  - destruct (accepts_port (gossh.BindPort request)) eqn:Hacc.
    + destruct (os "tcp" (bind_address request)) as [ln |] eqn:Hos;
        [discriminate |].
      rewrite (handler_bind_failure rev os ctx messages sshConnection Hm Hc
                 Payload request w Hdec Hacc Hos).
      destruct (defer_close_open
                  (record (EvListen "tcp" (bind_address request)) w)
                  messages (false, @nil byte) Hopen)
        as (w' & Hrun & Htr & Hcl).
      exists [], w', [EvListen "tcp" (bind_address request)].
      rewrite Hrun, Htr. simpl. rewrite <- app_assoc. auto.
    + rewrite (handler_reserved rev os ctx messages sshConnection Hm Hc
                 Payload request w Hdec Hacc).
      destruct (defer_close_open w messages
                  (false, list_byte_of_string
                            (unsupported (gossh.BindPort request))) Hopen)
        as (w' & Hrun & Htr & Hcl).
      eexists _, w', []. rewrite Hrun, Htr. auto.
  - rewrite (handler_undecodable rev os ctx messages sshConnection Hm Hc
               Payload w Hdec).
    destruct (defer_close_open w messages (false, @nil byte) Hopen)
      as (w' & Hrun & Htr & Hcl).
    exists [], w', []. rewrite Hrun, Htr. auto.
Qed.

(** The same request on a connection whose messages channel was closed
    before: the deferred [close] panics. *)
Lemma handler_rejects_closed (rev : revision) (os : OS)
  (ctx : gmap ctx_key ctx_value) (messages : chan_id)
  (sshConnection : ServerConn) (Payload : list byte) (w : World) :
  ctx !! KeyString messageChannelName = Some (VChanString messages) ->
  ctx !! ContextKeyConn = Some (VServerConn sshConnection) ->
  chan_is_closed w messages = true ->
  rejects os Payload = true ->
  exists w',
    tcpipForwardRequestHandler rev os ctx Payload w =
    (Panic "close of closed channel", w')
    /\ chan_is_closed w' messages = true.
Proof.
  intros Hm Hc Hcl Hrej. unfold rejects in Hrej.
  destruct (gossh.Unmarshal_request Payload) as [request |] eqn:Hdec.
  - destruct (accepts_port (gossh.BindPort request)) eqn:Hacc.
    + destruct (os "tcp" (bind_address request)) as [ln |] eqn:Hos;
        [discriminate |].
      rewrite (handler_bind_failure rev os ctx messages sshConnection Hm Hc
                 Payload request w Hdec Hacc Hos).
      rewrite defer_close_closed by exact Hcl. eexists. split; eauto.
    + rewrite (handler_reserved rev os ctx messages sshConnection Hm Hc
                 Payload request w Hdec Hacc).
      rewrite defer_close_closed by exact Hcl. eexists. split; eauto.
  - rewrite (handler_undecodable rev os ctx messages sshConnection Hm Hc
               Payload w Hdec).
    rewrite defer_close_closed by exact Hcl. eexists. split; eauto.
Qed.

(** C10: a request that the handler answers with [ok = false] (one that
    does not decode, one for a port that is not accepted, one whose bind
    fails) closes the messages channel of the connection as its last
    effect; a second such request on the same connection then closes a
    closed channel, which is a panic. *)
Theorem failed_request_closes_messages (rev : revision) (os os' : OS)
  (ctx : gmap ctx_key ctx_value) (messages : chan_id)
  (sshConnection : ServerConn) (Payload Payload' : list byte) (w : World) :
  ctx !! KeyString messageChannelName = Some (VChanString messages) ->
  ctx !! ContextKeyConn = Some (VServerConn sshConnection) ->
  chan_open w messages = true ->
  rejects os Payload = true ->
  rejects os' Payload' = true ->
  exists p w' evs w'',
    tcpipForwardRequestHandler rev os ctx Payload w = (Ret (false, p), w')
    /\ trace w' = trace w ++ evs ++ [EvClose messages]
    /\ chan_is_closed w' messages = true
    /\ tcpipForwardRequestHandler rev os' ctx Payload' w' =
       (Panic "close of closed channel", w'')
    /\ chan_is_closed w'' messages = true.
Proof.
  intros Hm Hc Hopen Hrej Hrej'.
  destruct (handler_rejects_open rev os ctx messages sshConnection Payload w
              Hm Hc Hopen Hrej) as (p & w' & evs & Hrun & Hcl & Htr & _).
  destruct (handler_rejects_closed rev os' ctx messages sshConnection Payload'
              w' Hm Hc Hcl Hrej') as (w'' & Hrun' & Hcl').
  exists p, w', evs, w''. auto.
Qed.

(** C2, as stated, fails: the policy does not allow port 23, and the
    handler binds it. *)
Lemma privileged_port_is_bound :
  let run :=
    tcpipForwardRequestHandler Refactored
      (granting {| net.IP := "127.0.0.1"; net.Port := 23 |})
      served_ctx (bind_request 23) served_world in
  gossh.Unmarshal_request (bind_request 23)
  = Some {| gossh.BindAddr := "localhost"; gossh.BindPort := 23 |}
  /\ allowTCPForwarding 23 = false
  /\ fst run = Ret (true, gossh.Marshal_response 23)
  /\ trace (snd run) =
     [ EvListen "tcp" "localhost:23";
       EvSend 0%nat "forwarding traffic from 127.0.0.1:23";
       EvGo (GoCloseOnDone
               {| ln_id := 0;
                  Addr := {| net.IP := "127.0.0.1"; net.Port := 23 |} |});
       EvGo (GoAccept Refactored
               {| ln_id := 0;
                  Addr := {| net.IP := "127.0.0.1"; net.Port := 23 |} |}
               0%nat 1%nat "localhost" 23) ]
  /\ ~ admission_follows_policy.
Proof.
  cbv zeta.
  split; [vm_compute; reflexivity |].
  split; [vm_compute; reflexivity |].
  split; [vm_compute; reflexivity |].
  split; [vm_compute; reflexivity |].
  intros H.
  specialize (H Refactored
                (granting {| net.IP := "127.0.0.1"; net.Port := 23 |})
                served_ctx 0%nat 1%nat (bind_request 23)
                {| gossh.BindAddr := "localhost"; gossh.BindPort := 23 |}
                served_world).
  vm_compute in H. specialize (H eq_refl eq_refl eq_refl eq_refl).
  discriminate H.
Qed.

(** C2, amended: the handler calls [net.Listen] exactly for the ports
    other than 22, 80 and 443, and answers the others with
    [ok = false]; every port that the policy allows is accepted. *)
Theorem admission_decision (rev : revision) (os : OS)
  (ctx : gmap ctx_key ctx_value) (messages : chan_id)
  (sshConnection : ServerConn) (Payload : list byte)
  (request : gossh.request) (w : World) :
  ctx !! KeyString messageChannelName = Some (VChanString messages) ->
  ctx !! ContextKeyConn = Some (VServerConn sshConnection) ->
  chan_open w messages = true ->
  gossh.Unmarshal_request Payload = Some request ->
  let p := gossh.BindPort request in
  let run := tcpipForwardRequestHandler rev os ctx Payload w in
  existsb is_listen (new_events w (snd run)) = accepts_port p
  /\ (accepts_port p = true <-> p <> 22 /\ p <> 80 /\ p <> 443)
  /\ (accepts_port p = true ->
      exists evs,
        new_events w (snd run) = EvListen "tcp" (bind_address request) :: evs)
  /\ (accepts_port p = false ->
      fst run = Ret (false, list_byte_of_string (unsupported p)))
  /\ (allowTCPForwarding p = true -> accepts_port p = true).
Proof.
  intros Hm Hc Hopen Hdec. cbv zeta.
  set (p := gossh.BindPort request).
  set (run := tcpipForwardRequestHandler rev os ctx Payload w).
  assert (accepts_port p = true ->
          exists evs,
            new_events w (snd run)
            = EvListen "tcp" (bind_address request) :: evs) as Hlisten.
  { intros Hacc. subst run p.
    destruct (os "tcp" (bind_address request)) as [ln |] eqn:Hos.
    - destruct (handler_bind_success rev os ctx messages sshConnection Hm Hc
                  Payload request ln w Hdec Hacc Hos Hopen)
        as (w' & Hrun & Htr & _).
      rewrite Hrun. simpl. rewrite (new_events_app _ _ _ Htr). eauto.
    - rewrite (handler_bind_failure rev os ctx messages sshConnection Hm Hc
                 Payload request w Hdec Hacc Hos).
      destruct (defer_close_open
                  (record (EvListen "tcp" (bind_address request)) w)
                  messages (false, @nil byte) Hopen)
        as (w' & Hrun & Htr & _).
      rewrite Hrun. simpl in *. rewrite <- app_assoc in Htr.
      rewrite (new_events_app _ _ _ Htr). eauto. }
  assert (accepts_port p = false ->
          fst run = Ret (false, list_byte_of_string (unsupported p))
          /\ new_events w (snd run) = [EvClose messages]) as Hreject.
  { intros Hacc. subst run p.
    rewrite (handler_reserved rev os ctx messages sshConnection Hm Hc
               Payload request w Hdec Hacc).
    destruct (defer_close_open w messages
                (false, list_byte_of_string
                          (unsupported (gossh.BindPort request))) Hopen)
      as (w' & Hrun & Htr & _).
    rewrite Hrun. simpl. rewrite (new_events_app _ _ _ Htr). auto. }
  split.
  - destruct (accepts_port p) eqn:Hacc.
    + destruct (Hlisten eq_refl) as [evs ->]. reflexivity.
    + destruct (Hreject eq_refl) as [_ ->]. reflexivity.
  - split; [apply accepts_port_spec |].
    split; [exact Hlisten |].
    split; [intros Hacc; apply Hreject, Hacc | apply policy_accepts_port].
Qed.

(** ** The order of the reply and the notifications *)

(** C9, as stated, fails: when this request returns [ok = true], the
    notification that the forwarding started has been sent. *)
Lemma notification_precedes_reply :
  let run :=
    tcpipForwardRequestHandler Refactored
      (granting {| net.IP := "127.0.0.1"; net.Port := 8080 |})
      served_ctx (bind_request 8080) served_world in
  fst run = Ret (true, gossh.Marshal_response 8080)
  /\ filter (fun e => is_send e = true) (trace (snd run))
     = [EvSend 0%nat "forwarding traffic from 127.0.0.1:8080"]
  /\ delivered <$> (chans (snd run) !! 0%nat)
     = Some ["forwarding traffic from 127.0.0.1:8080"].
Proof. cbv zeta. repeat split; vm_compute; reflexivity. Qed.

(** C9, amended: the handler itself accepts no connection. A request
    that it rejects sends no notification. A request that it binds sends
    one notification before the handler returns, the one about the
    forwarded address, and the handler starts the goroutine of the
    accept loop, which sends all others, before it returns. *)
Theorem notifications_around_reply (rev : revision) (os : OS)
  (ctx : gmap ctx_key ctx_value) (messages : chan_id)
  (sshConnection : ServerConn) (Payload : list byte) (w : World) :
  ctx !! KeyString messageChannelName = Some (VChanString messages) ->
  ctx !! ContextKeyConn = Some (VServerConn sshConnection) ->
  chan_open w messages = true ->
  let run := tcpipForwardRequestHandler rev os ctx Payload w in
  existsb is_accept (new_events w (snd run)) = false
  /\ (rejects os Payload = true ->
      existsb is_send (new_events w (snd run)) = false)
  /\ (rejects os Payload = false ->
      exists request ln,
        gossh.Unmarshal_request Payload = Some request
        /\ fst run
           = Ret (true, gossh.Marshal_response (uint32 (bound_port ln)))
        /\ new_events w (snd run) =
           [ EvListen "tcp" (bind_address request);
             EvSend messages
               ("forwarding traffic from " +:+ net.TCPAddr_String (Addr ln));
             EvGo (GoCloseOnDone ln);
             EvGo (GoAccept rev ln messages sshConnection
                     (gossh.BindAddr request) (bound_port ln)) ]).
Proof.
  intros Hm Hc Hopen run.
  assert (rejects os Payload = false ->
      exists request ln,
        gossh.Unmarshal_request Payload = Some request
        /\ fst run
           = Ret (true, gossh.Marshal_response (uint32 (bound_port ln)))
        /\ new_events w (snd run) =
           [ EvListen "tcp" (bind_address request);
             EvSend messages
               ("forwarding traffic from " +:+ net.TCPAddr_String (Addr ln));
             EvGo (GoCloseOnDone ln);
             EvGo (GoAccept rev ln messages sshConnection
                     (gossh.BindAddr request) (bound_port ln)) ]) as Hbound.
  { intros Hrej. unfold rejects in Hrej.
    destruct (gossh.Unmarshal_request Payload) as [request |] eqn:Hdec;
      [| discriminate].
    destruct (accepts_port (gossh.BindPort request)) eqn:Hacc; [| discriminate].
    destruct (os "tcp" (bind_address request)) as [ln |] eqn:Hos;
      [| discriminate].
    destruct (handler_bind_success rev os ctx messages sshConnection Hm Hc
                Payload request ln w Hdec Hacc Hos Hopen)
      as (w' & Hrun & Htr & _).
    exists request, ln. subst run. rewrite Hrun. simpl.
    rewrite (new_events_app _ _ _ Htr). auto. }
  assert (rejects os Payload = true ->
          existsb is_send (new_events w (snd run)) = false
          /\ existsb is_accept (new_events w (snd run)) = false) as Hrejected.
  { intros Hrej.
    destruct (handler_rejects_open rev os ctx messages sshConnection Payload w
                Hm Hc Hopen Hrej)
      as (p & w' & evs & Hrun & _ & Htr & Hs & Ha).
    subst run. rewrite Hrun. simpl. rewrite (new_events_app _ _ _ Htr).
    rewrite !existsb_app, Hs, Ha. auto. }
  split.
  - destruct (rejects os Payload) eqn:Hrej.
    + apply Hrejected. reflexivity.
    + destruct (Hbound eq_refl) as (request & ln & _ & _ & ->). reflexivity.
  - split; [intros Hrej; apply Hrejected, Hrej | exact Hbound].
Qed.

(** ** The accept loop *)

Section accept_loop.
Variables (ln : Listener) (messages : chan_id) (sshConnection : ServerConn).
Variables (BindAddr : string) (destPort : Z).

Let handler :=
  tcpipForwardConnectionHandler ln (notifier messages)
    (newChannel sshConnection BindAddr destPort).

(** An error that the loop swallows: [Accept] is called again. *)
Lemma handler_transient (err : net.error) (script : list accept_result)
  (w : World) :
  transient err = true ->
  handler (AcceptFailed err :: script) w
  = handler script (record (EvAccept ln) w).
Proof.
  intros H. unfold handler. cbn [tcpipForwardConnectionHandler].
  unfold transient in H. rewrite H. reflexivity.
Qed.

(** Any other error ends the loop. *)
Lemma handler_fatal (err : net.error) (script : list accept_result)
  (w : World) :
  transient err = false ->
  handler (AcceptFailed err :: script) w
  = (Ret (errors_Wrap err "failed to accept new connection"),
     record (EvAccept ln) w).
Proof.
  intros H. unfold handler. cbn [tcpipForwardConnectionHandler].
  unfold transient in H. rewrite H. reflexivity.
Qed.

Lemma run_accept_transient (err : net.error) (script : list accept_result)
  (w : World) :
  transient err = true ->
  run_accept Refactored ln messages sshConnection BindAddr destPort
    (AcceptFailed err :: script) w
  = run_accept Refactored ln messages sshConnection BindAddr destPort
      script (record (EvAccept ln) w).
Proof.
  intros H. unfold run_accept, defer, bind. fold handler.
  rewrite handler_transient by exact H. reflexivity.
Qed.

Lemma run_accept_fatal (err : net.error) (script : list accept_result)
  (w : World) :
  transient err = false ->
  chan_open w messages = true ->
  exists w',
    run_accept Refactored ln messages sshConnection BindAddr destPort
      (AcceptFailed err :: script) w = (Ret tt, w')
    /\ trace w' =
       trace w ++
         [ EvAccept ln;
           EvSend messages
             ("error occurred while processing: "
                +:+ "failed to accept new connection: " +:+ net.Error err);
           EvClose messages ]
    /\ chan_is_closed w' messages = true.
Proof.
  intros H Hopen. unfold run_accept, defer, bind. fold handler.
  rewrite handler_fatal by exact H.
  destruct (send_open (record (EvAccept ln) w) messages
              ("error occurred while processing: "
                 +:+ errors_Wrap err "failed to accept new connection")
              Hopen) as (w1 & Hsend & Htr1 & Hopen1 & _).
  rewrite Hsend.
  destruct (close_open w1 messages Hopen1) as (w2 & Hclose & Htr2 & Hcl & _).
  rewrite Hclose. exists w2. split; [reflexivity |].
  split; [| exact Hcl]. rewrite Htr2, Htr1. simpl.
  rewrite <- !app_assoc. reflexivity.
Qed.
End accept_loop.

(** C6, as stated, fails in [ssh_server.go]: its accept loop has no
    test for timeouts: an error of [Accept] that is a timeout ends the
    loop after one call of [Accept], the messages channel is closed and
    the socket that comes next is never accepted. *)
Lemma inline_timeout_is_fatal :
  let run :=
    run_accept Inline example_listener 0%nat 1%nat "localhost" 8080
      [AcceptFailed timeout_error; Accepted later_conn (OpenOk 3%nat 4%nat)]
      served_world in
  transient timeout_error = true
  /\ net.Timeout timeout_error = true
  /\ fst run = Ret tt
  /\ trace (snd run) =
     [ EvAccept example_listener;
       EvSend 0%nat ("error occurred while accepting connection" +:+ newline);
       EvClose 0%nat ]
  /\ chan_is_closed (snd run) 0%nat = true.
Proof. cbv zeta. repeat split; vm_compute; reflexivity. Qed.

(** C6, amended: in the source with [tcpipForwardConnectionHandler] the
    accept loop swallows the errors of type [net.OpError] that are
    timeouts or temporary and calls [Accept] again, without a
    notification, at any point of the loop; the first other error ends
    the loop: the goroutine sends one notification about the error and
    then closes the messages channel, and [Accept] is not called again.
    In [ssh_server.go] every error of [Accept], of whatever kind, ends
    the loop in this way: one call of [Accept], one notification, then
    the messages channel is closed. *)
Theorem accept_errors_by_source (ln : Listener) (messages : chan_id)
  (sshConnection : ServerConn) (BindAddr : string) (destPort : Z)
  (errs : list net.error) (err : net.error) (rest : list accept_result)
  (w : World) :
  Forall (fun e => transient e = true) errs ->
  transient err = false ->
  chan_open w messages = true ->
  (exists w',
     run_accept Refactored ln messages sshConnection BindAddr destPort
       (map AcceptFailed errs ++ AcceptFailed err :: rest) w = (Ret tt, w')
     /\ trace w' =
        trace w ++ repeat (EvAccept ln) (length errs) ++
          [ EvAccept ln;
            EvSend messages
              ("error occurred while processing: "
                 +:+ "failed to accept new connection: " +:+ net.Error err);
            EvClose messages ]
     /\ chan_is_closed w' messages = true)
  /\ (forall (e : net.error) (script : list accept_result) (w0 : World),
        transient e = true ->
        tcpipForwardConnectionHandler ln (notifier messages)
          (newChannel sshConnection BindAddr destPort)
          (AcceptFailed e :: script) w0
        = tcpipForwardConnectionHandler ln (notifier messages)
            (newChannel sshConnection BindAddr destPort)
            script (record (EvAccept ln) w0))
  /\ (forall (e : net.error) (script : list accept_result),
        exists w',
          run_accept Inline ln messages sshConnection BindAddr destPort
            (AcceptFailed e :: script) w = (Ret tt, w')
          /\ trace w' =
             trace w ++
               [ EvAccept ln;
                 EvSend messages
                   ("error occurred while accepting connection" +:+ newline);
                 EvClose messages ]
          /\ chan_is_closed w' messages = true).
Proof.
  intros Herrs Hfatal Hopen. split; [| split].
  - revert w Hopen.
    induction Herrs as [| e errs He _ IH]; intros w Hopen.
    + simpl. apply run_accept_fatal; assumption.
    + cbn [map app]. rewrite run_accept_transient by exact He.
      destruct (IH (record (EvAccept ln) w) Hopen) as (w' & Hrun & Htr & Hcl).
      exists w'. split; [exact Hrun |]. split; [| exact Hcl].
      rewrite Htr. simpl. rewrite <- !app_assoc. reflexivity.
  - intros e script w0 He. apply handler_transient, He.
  - intros e script.
    unfold run_accept, bind. cbn [accept_loop]. unfold bind, emit.
    destruct (send_open (record (EvAccept ln) w) messages
                ("error occurred while accepting connection" +:+ newline)
                Hopen) as (w1 & Hsend & Htr1 & Hopen1 & _).
    rewrite Hsend.
    destruct (close_open w1 messages Hopen1)
      as (w2 & Hclose & Htr2 & Hcl & _).
    rewrite Hclose. exists w2. split; [reflexivity |].
    split; [| exact Hcl].
    rewrite Htr2, Htr1. simpl. rewrite <- !app_assoc. reflexivity.
Qed.

(** In [ssh_server.go] every error of [Accept] ends the loop. *)
Lemma inline_accept_error_fatal (ln : Listener) (messages : chan_id)
  (sshConnection : ServerConn) (BindAddr : string) (destPort : Z)
  (err : net.error) (rest : list accept_result) (w : World) :
  chan_open w messages = true ->
  exists w',
    run_accept Inline ln messages sshConnection BindAddr destPort
      (AcceptFailed err :: rest) w = (Ret tt, w')
    /\ trace w' =
       trace w ++
         [ EvAccept ln;
           EvSend messages
             ("error occurred while accepting connection" +:+ newline);
           EvClose messages ].
Proof.
  intros Hopen. unfold run_accept, bind. cbn [accept_loop]. unfold bind, emit.
  destruct (send_open (record (EvAccept ln) w) messages
              ("error occurred while accepting connection" +:+ newline)
              Hopen) as (w1 & Hsend & Htr1 & Hopen1 & _).
  rewrite Hsend.
  destruct (close_open w1 messages Hopen1) as (w2 & Hclose & Htr2 & _).
  rewrite Hclose. exists w2. split; [reflexivity |].
  rewrite Htr2, Htr1. simpl. rewrite <- !app_assoc. reflexivity.
Qed.

(** ** A channel that fails to open *)

(** C7 on the refactored source: after the channel fails to open the
    loop sends the notification, does not close the accepted socket,
    starts the relay goroutines on the nil channel, each of which
    panics, and goes on to accept the next connection. *)
Lemma refactored_open_failure_not_abandoned :
  let run :=
    run_accept Refactored example_listener 0%nat 1%nat "localhost" 8080
      refused_script served_world in
  fst run = Blocked
  /\ trace (snd run) =
     [ EvAccept example_listener;
       EvSend 0%nat "accepted connection from 10.0.0.9:50000";
       EvOpenChannel 1%nat "forwarded-tcpip"
         (gossh.Marshal_forward
            {| gossh.DestAddr := "localhost"; gossh.DestPort := 8080;
               gossh.OriginAddr := "10.0.0.9"; gossh.OriginPort := 50000 |});
       EvSend 0%nat "error occurred while processing: rejected";
       EvGo (GoDiscardRequests None);
       EvGo (GoCopy ToChannel None refused_conn);
       EvGo (GoCopy ToConn None refused_conn);
       EvAccept example_listener;
       EvSend 0%nat "accepted connection from 10.0.0.9:50001";
       EvOpenChannel 1%nat "forwarded-tcpip"
         (gossh.Marshal_forward
            {| gossh.DestAddr := "localhost"; gossh.DestPort := 8080;
               gossh.OriginAddr := "10.0.0.9"; gossh.OriginPort := 50001 |});
       EvGo (GoDiscardRequests (Some 4%nat));
       EvGo (GoCopy ToChannel (Some 3%nat) later_conn);
       EvGo (GoCopy ToConn (Some 3%nat) later_conn);
       EvAccept example_listener ]
  /\ existsb is_conn_close (trace (snd run)) = false
  /\ closed_conns (snd run) = ∅
  /\ (forall dir io w,
        run_copy dir None refused_conn io w
        = (Panic "invalid memory address or nil pointer dereference", w)).
Proof.
  cbv zeta. split; [vm_compute; reflexivity |].
  split; [vm_compute; reflexivity |].
  split; [vm_compute; reflexivity |].
  split; [vm_compute; reflexivity |].
  intros dir io w. reflexivity.
Qed.

(** In [ssh_server.go] the accepted socket is closed, but the loop ends
    and the messages channel is closed: the later connection is never
    accepted. *)
Lemma inline_open_failure_ends_loop :
  let run :=
    run_accept Inline example_listener 0%nat 1%nat "localhost" 8080
      refused_script served_world in
  fst run = Ret tt
  /\ trace (snd run) =
     [ EvAccept example_listener;
       EvSend 0%nat "accepted connection from 10.0.0.9:50000";
       EvOpenChannel 1%nat "forwarded-tcpip"
         (gossh.Marshal_forward
            {| gossh.DestAddr := "localhost"; gossh.DestPort := 8080;
               gossh.OriginAddr := "10.0.0.9"; gossh.OriginPort := 50000 |});
       EvSend 0%nat "error occurred while forwarding connection";
       EvConnClose refused_conn;
       EvClose 0%nat ].
Proof. cbv zeta. split; vm_compute; reflexivity. Qed.

(** ** The relay *)

Lemma run_copy_returns (dir : direction) (channel : Channel) (conn : Conn)
  (io : option copy_result) (w : World) :
  is_Some io \/ conn_id conn ∈ closed_conns w \/ channel ∈ closed_channels w ->
  run_copy dir (Some channel) conn io w =
  (Ret tt,
   record (EvChannelClose channel)
     (set_closed_channels (fun s => {[channel]} ∪ s)
        (record (EvConnClose conn)
           (set_closed_conns (fun s => {[conn_id conn]} ∪ s)
              (record (EvCopy dir channel conn) w))))).
Proof.
  intros H. unfold run_copy, defer, bind, io_Copy.
  destruct (decide (conn_id conn ∈ closed_conns w
                    ∨ channel ∈ closed_channels w)) as [Hc | Hc].
  - reflexivity.
  - destruct H as [[r ->] | H]; [reflexivity | contradiction].
Qed.

(** C8: when the [io.Copy] of a copy loop returns, at the end of its
    input or with an error, the loop closes the accepted socket and the
    logical channel, and both are closed when it exits; the other loop
    then leaves its own [io.Copy] whatever its endpoints do, closes both
    again and exits. *)
Theorem copy_loop_closes_both (dir dir' : direction) (channel : Channel)
  (conn : Conn) (r : copy_result) (io' : option copy_result) (w : World) :
  exists w' w'',
    run_copy dir (Some channel) conn (Some r) w = (Ret tt, w')
    /\ trace w' =
       trace w ++
         [EvCopy dir channel conn; EvConnClose conn; EvChannelClose channel]
    /\ conn_id conn ∈ closed_conns w'
    /\ channel ∈ closed_channels w'
    /\ run_copy dir' (Some channel) conn io' w' = (Ret tt, w'')
    /\ trace w'' =
       trace w' ++
         [EvCopy dir' channel conn; EvConnClose conn; EvChannelClose channel]
    /\ conn_id conn ∈ closed_conns w''
    /\ channel ∈ closed_channels w''.
Proof.
  eexists _, _.
  split; [apply run_copy_returns; left; eauto |].
  split; [simpl; rewrite <- !app_assoc; reflexivity |].
  split; [simpl; set_solver |].
  split; [simpl; set_solver |].
  split; [apply run_copy_returns; right; left; simpl; set_solver |].
  split; [simpl; rewrite <- !app_assoc; reflexivity |].
  split; simpl; set_solver.
Qed.

(** ** The theorems at concrete requests *)

Lemma served_ctx_messages :
  served_ctx !! KeyString messageChannelName = Some (VChanString 0%nat).
Proof. vm_compute. reflexivity. Defined.

Lemma served_ctx_conn :
  served_ctx !! ContextKeyConn = Some (VServerConn 1%nat).
Proof. vm_compute. reflexivity. Defined.

Lemma served_world_open : chan_open served_world 0%nat = true.
Proof. vm_compute. reflexivity. Defined.

(** The world and the context of [served_world] and [served_ctx] are
    those that [connectionWrapper] makes for a new connection. *)
Lemma connectionWrapper_served :
  connectionWrapper ∅ empty_world
  = (Ret (<[KeyString messageChannelName := VChanString 0%nat]> ∅),
     served_world).
Proof. vm_compute. reflexivity. Qed.

Lemma reserved_port_rejected_witness :
  gossh.Unmarshal_request (bind_request 22)
  = Some {| gossh.BindAddr := "localhost"; gossh.BindPort := 22 |}
  /\ exists w',
       tcpipForwardRequestHandler Refactored refusing served_ctx
         (bind_request 22) served_world
       = (Ret (false, list_byte_of_string "forwarding 22 not supported yet"),
          w')
       /\ trace w' = [EvClose 0%nat].
Proof.
  split; [vm_compute; reflexivity |].
  destruct (reserved_port_rejected Refactored refusing served_ctx 0%nat 1%nat
              (bind_request 22)
              {| gossh.BindAddr := "localhost"; gossh.BindPort := 22 |}
              served_world served_ctx_messages served_ctx_conn
              served_world_open ltac:(vm_compute; reflexivity)
              (or_introl eq_refl))
    as (w' & Hrun & _ & Htr & _).
  exists w'. split; [exact Hrun | exact Htr].
Defined.

Lemma undecodable_payload_rejected_witness :
  gossh.Unmarshal_request [x00; x00; x00] = None
  /\ exists w',
       tcpipForwardRequestHandler Inline refusing served_ctx [x00; x00; x00]
         served_world
       = (Ret (false, []), w')
       /\ trace w' = [EvClose 0%nat].
Proof.
  split; [reflexivity |].
  destruct (undecodable_payload_rejected Inline refusing served_ctx 0%nat
              1%nat [x00; x00; x00] served_world served_ctx_messages
              served_ctx_conn served_world_open
              ltac:(vm_compute; reflexivity))
    as (w' & Hrun & Htr & _).
  exists w'. split; [exact Hrun | exact Htr].
Defined.

Lemma ephemeral_port_reply_witness :
  exists w',
    tcpipForwardRequestHandler Refactored
      (granting {| net.IP := "::"; net.Port := 43211 |})
      served_ctx (bind_request 0) served_world
    = (Ret (true, gossh.Marshal_response 43211), w').
Proof.
  destruct (ephemeral_port_reply Refactored
              (granting {| net.IP := "::"; net.Port := 43211 |})
              served_ctx 0%nat 1%nat (bind_request 0)
              {| gossh.BindAddr := "localhost"; gossh.BindPort := 0 |}
              {| ln_id := 0; Addr := {| net.IP := "::"; net.Port := 43211 |} |}
              served_world served_ctx_messages served_ctx_conn
              served_world_open ltac:(vm_compute; reflexivity) eq_refl
              ltac:(vm_compute; reflexivity) ltac:(vm_compute; reflexivity)
              ltac:(vm_compute; reflexivity) ltac:(simpl; lia))
    as (w' & Hrun & _).
  exists w'. exact Hrun.
Defined.

Lemma failed_request_closes_messages_witness :
  exists p w' w'',
    tcpipForwardRequestHandler Inline refusing served_ctx (bind_request 8080)
      served_world = (Ret (false, p), w')
    /\ chan_is_closed w' 0%nat = true
    /\ tcpipForwardRequestHandler Inline refusing served_ctx (bind_request 22)
         w' = (Panic "close of closed channel", w'').
Proof.
  destruct (failed_request_closes_messages Inline refusing refusing served_ctx
              0%nat 1%nat (bind_request 8080) (bind_request 22) served_world
              served_ctx_messages served_ctx_conn served_world_open
              ltac:(vm_compute; reflexivity) ltac:(vm_compute; reflexivity))
    as (p & w' & evs & w'' & Hrun & _ & Hcl & Hrun' & _).
  exists p, w', w''. split; [exact Hrun |]. split; [exact Hcl | exact Hrun'].
Defined.

Lemma admission_decision_witness :
  existsb is_listen
    (new_events served_world
       (snd (tcpipForwardRequestHandler Inline refusing served_ctx
               (bind_request 23) served_world)))
  = true.
Proof.
  destruct (admission_decision Inline refusing served_ctx 0%nat 1%nat
              (bind_request 23)
              {| gossh.BindAddr := "localhost"; gossh.BindPort := 23 |}
              served_world served_ctx_messages served_ctx_conn
              served_world_open ltac:(vm_compute; reflexivity))
    as (H & _).
  exact H.
Defined.

Lemma notifications_around_reply_witness :
  existsb is_accept
    (new_events served_world
       (snd (tcpipForwardRequestHandler Refactored
               (granting {| net.IP := "127.0.0.1"; net.Port := 8080 |})
               served_ctx (bind_request 8080) served_world)))
  = false.
Proof.
  destruct (notifications_around_reply Refactored
              (granting {| net.IP := "127.0.0.1"; net.Port := 8080 |})
              served_ctx 0%nat 1%nat (bind_request 8080) served_world
              served_ctx_messages served_ctx_conn served_world_open)
    as (H & _).
  exact H.
Defined.

Lemma accept_errors_by_source_witness :
  (exists w',
     run_accept Refactored example_listener 0%nat 1%nat "localhost" 8080
       [ AcceptFailed timeout_error; AcceptFailed closed_error;
         Accepted later_conn (OpenOk 3%nat 4%nat) ] served_world
     = (Ret tt, w')
     /\ chan_is_closed w' 0%nat = true)
  /\ (exists w',
        run_accept Inline example_listener 0%nat 1%nat "localhost" 8080
          [ AcceptFailed timeout_error;
            Accepted later_conn (OpenOk 3%nat 4%nat) ] served_world
        = (Ret tt, w')
        /\ chan_is_closed w' 0%nat = true).
Proof.
  destruct (accept_errors_by_source example_listener 0%nat 1%nat "localhost"
              8080 [timeout_error] closed_error
              [Accepted later_conn (OpenOk 3%nat 4%nat)] served_world
              ltac:(repeat constructor) eq_refl
              served_world_open)
    as ((w' & Hrun & _ & Hcl) & _ & Hinline).
  split.
  - exists w'. split; [exact Hrun | exact Hcl].
  - destruct (Hinline timeout_error [Accepted later_conn (OpenOk 3%nat 4%nat)])
      as (w'' & Hrun' & _ & Hcl').
    exists w''. split; [exact Hrun' | exact Hcl'].
Defined.

(** ** The state that the request handler leaves *)

Lemma send_open_state (w : World) (c : chan_id) (st : chan_state)
  (msg : string) :
  chans w !! c = Some st -> chan_closed st = false ->
  send c msg w =
  (Ret tt,
   record (EvSend c msg)
     (set_chans <[c := {| chan_closed := false;
                          delivered := delivered st ++ [msg] |}]> w)).
Proof. intros H1 H2. unfold send. rewrite H1, H2. reflexivity. Qed.

Lemma close_open_state (w : World) (c : chan_id) (st : chan_state) :
  chans w !! c = Some st -> chan_closed st = false ->
  close c w =
  (Ret tt,
   record (EvClose c)
     (set_chans <[c := {| chan_closed := true;
                          delivered := delivered st |}]> w)).
Proof. intros H1 H2. unfold close. rewrite H1, H2. reflexivity. Qed.

Section handler_state.
Variables (rev : revision) (os : OS) (ctx : gmap ctx_key ctx_value).
Variables (messages : chan_id) (sshConnection : ServerConn).
Variables (w : World) (st : chan_state).
Hypothesis Hmessages :
  ctx !! KeyString messageChannelName = Some (VChanString messages).
Hypothesis Hconn : ctx !! ContextKeyConn = Some (VServerConn sshConnection).
Hypothesis Hchan : chans w !! messages = Some st.
Hypothesis Hopen : chan_closed st = false.

(** A rejected request: the reply is [ok = false] and the only change of
    the store is that the messages channel is closed. *)
Lemma handler_rejects_state (Payload : list byte) :
  rejects os Payload = true ->
  exists p w',
    tcpipForwardRequestHandler rev os ctx Payload w = (Ret (false, p), w')
    /\ chans w' =
       <[messages := {| chan_closed := true; delivered := delivered st |}]>
         (chans w)
    /\ closed_conns w' = closed_conns w
    /\ closed_channels w' = closed_channels w.
Proof.
  intros Hrej. unfold rejects in Hrej.
  destruct (gossh.Unmarshal_request Payload) as [request |] eqn:Hdec.
  - destruct (accepts_port (gossh.BindPort request)) eqn:Hacc.
    + destruct (os "tcp" (bind_address request)) as [ln |] eqn:Hos;
        [discriminate |].
      rewrite (handler_bind_failure rev os ctx messages sshConnection
                 Hmessages Hconn Payload request w Hdec Hacc Hos).
      unfold defer, ret.
      rewrite (close_open_state _ messages st) by assumption.
      eexists _, _. split; [reflexivity |]. auto.
    + rewrite (handler_reserved rev os ctx messages sshConnection
                 Hmessages Hconn Payload request w Hdec Hacc).
      unfold defer, ret.
      rewrite (close_open_state _ messages st) by assumption.
      eexists _, _. split; [reflexivity |]. auto.
  - rewrite (handler_undecodable rev os ctx messages sshConnection
               Hmessages Hconn Payload w Hdec).
    unfold defer, ret.
    rewrite (close_open_state _ messages st) by assumption.
    eexists _, _. split; [reflexivity |]. auto.
Qed.

(** A bound request: the reply is [ok = true] and the only change of
    the store is the notification handed to the receiver. *)
Lemma handler_binds_state (Payload : list byte) :
  rejects os Payload = false ->
  exists request ln w',
    gossh.Unmarshal_request Payload = Some request
    /\ accepts_port (gossh.BindPort request) = true
    /\ os "tcp" (bind_address request) = Some ln
    /\ tcpipForwardRequestHandler rev os ctx Payload w =
       (Ret (true, gossh.Marshal_response (uint32 (bound_port ln))), w')
    /\ chans w' =
       <[messages :=
           {| chan_closed := false;
              delivered :=
                delivered st ++
                  ["forwarding traffic from "
                     +:+ net.TCPAddr_String (Addr ln)] |}]>
         (chans w)
    /\ closed_conns w' = closed_conns w
    /\ closed_channels w' = closed_channels w
    /\ trace w' =
       trace w ++
         [ EvListen "tcp" (bind_address request);
           EvSend messages
             ("forwarding traffic from " +:+ net.TCPAddr_String (Addr ln));
           EvGo (GoCloseOnDone ln);
           EvGo (GoAccept rev ln messages sshConnection
                   (gossh.BindAddr request) (bound_port ln)) ].
Proof.
  intros Hrej. unfold rejects in Hrej.
  destruct (gossh.Unmarshal_request Payload) as [request |] eqn:Hdec;
    [| discriminate].
  destruct (accepts_port (gossh.BindPort request)) eqn:Hacc; [| discriminate].
  destruct (os "tcp" (bind_address request)) as [ln |] eqn:Hos;
    [| discriminate].
  exists request, ln.
  unfold tcpipForwardRequestHandler.
  rewrite Hmessages, Hconn. unfold defer_ok, bind. simpl.
  rewrite Hdec, Hacc. fold (bind_address request). simpl. rewrite Hos.
  rewrite (send_open_state _ messages st) by assumption.
  unfold bound_port.
  destruct (net.SplitHostPort (net.TCPAddr_String (Addr ln)))
    as [[host destPortStr] err].
  cbn [fst snd]. destruct (strconv.Atoi destPortStr) as [destPort err'].
  unfold ret. simpl. eexists. repeat split; try reflexivity.
  simpl. rewrite <- !app_assoc. reflexivity.
Qed.
End handler_state.

(** ** Requests on a context that lacks a value *)

(** Without a channel of strings under the key "messages" the handler
    answers [ok = false] with the text "internal server error": it does
    not look at the payload or at the connection and has no effect. *)
Theorem handler_without_messages (rev : revision) (os : OS)
  (ctx : gmap ctx_key ctx_value) (Payload : list byte) (w : World) :
  (forall c, ctx !! KeyString messageChannelName <> Some (VChanString c)) ->
  tcpipForwardRequestHandler rev os ctx Payload w =
  (Ret (false, list_byte_of_string "internal server error"), w).
Proof.
  intros H. unfold tcpipForwardRequestHandler.
  destruct (ctx !! KeyString messageChannelName) as [[c | c | s] |] eqn:E;
    try reflexivity.
  exfalso. apply (H c). reflexivity.
Qed.

(** Without the connection under [ssh.ContextKeyConn] the type assertion
    panics. The deferred closure then sees [ok = true]: the messages
    channel is not closed, and nothing else happened. *)
Theorem handler_without_connection (rev : revision) (os : OS)
  (ctx : gmap ctx_key ctx_value) (messages : chan_id) (Payload : list byte)
  (w : World) :
  ctx !! KeyString messageChannelName = Some (VChanString messages) ->
  (forall c, ctx !! ContextKeyConn <> Some (VServerConn c)) ->
  tcpipForwardRequestHandler rev os ctx Payload w =
  (Panic "interface conversion", w).
Proof.
  intros Hm H. unfold tcpipForwardRequestHandler. rewrite Hm.
  unfold defer_ok, bind, assert_ServerConn.
  destruct (ctx !! ContextKeyConn) as [[c | c | s] |] eqn:E;
    try reflexivity.
  exfalso. apply (H c). reflexivity.
Qed.

(** ** Binds that fail and binds that succeed *)

(** When the operating system refuses the address, the handler answers
    [ok = false] with an empty payload. It called [net.Listen] once, on
    the address joined from the requested host and port, started no
    goroutine and sent no notification, and closed the messages
    channel. *)
Theorem bind_failure_rejected (rev : revision) (os : OS)
  (ctx : gmap ctx_key ctx_value) (messages : chan_id)
  (sshConnection : ServerConn) (Payload : list byte)
  (request : gossh.request) (w : World) :
  ctx !! KeyString messageChannelName = Some (VChanString messages) ->
  ctx !! ContextKeyConn = Some (VServerConn sshConnection) ->
  chan_open w messages = true ->
  gossh.Unmarshal_request Payload = Some request ->
  accepts_port (gossh.BindPort request) = true ->
  os "tcp"
    (net.JoinHostPort (gossh.BindAddr request)
       (strconv.Itoa (gossh.BindPort request))) = None ->
  exists w',
    tcpipForwardRequestHandler rev os ctx Payload w = (Ret (false, []), w')
    /\ trace w' =
       trace w ++
         [ EvListen "tcp"
             (net.JoinHostPort (gossh.BindAddr request)
                (strconv.Itoa (gossh.BindPort request)));
           EvClose messages ]
    /\ chan_is_closed w' messages = true.
Proof.
  intros Hm Hc Hopen Hdec Hacc Hos. fold (bind_address request) in *.
  rewrite (handler_bind_failure rev os ctx messages sshConnection Hm Hc
             Payload request w Hdec Hacc Hos).
  destruct (defer_close_open
              (record (EvListen "tcp" (bind_address request)) w)
              messages (false, @nil byte) Hopen)
    as (w' & Hrun & Htr & Hcl).
  exists w'. split; [exact Hrun |]. split; [| exact Hcl].
  rewrite Htr. simpl. rewrite <- app_assoc. reflexivity.
Qed.

(** For every port that the handler accepts, a successful bind is
    answered with [ok = true] and the port of the listener, whatever
    port was asked for; the accept goroutine gets the same port as the
    destination port of its channels, a goroutine that closes the
    listener with the connection is started, and the messages channel
    stays open. *)
Theorem bound_port_reply (rev : revision) (os : OS)
  (ctx : gmap ctx_key ctx_value) (messages : chan_id)
  (sshConnection : ServerConn) (Payload : list byte)
  (request : gossh.request) (ln : Listener) (w : World) :
  ctx !! KeyString messageChannelName = Some (VChanString messages) ->
  ctx !! ContextKeyConn = Some (VServerConn sshConnection) ->
  chan_open w messages = true ->
  gossh.Unmarshal_request Payload = Some request ->
  accepts_port (gossh.BindPort request) = true ->
  os "tcp" (bind_address request) = Some ln ->
  lacks (net.IP (Addr ln)) "[" -> lacks (net.IP (Addr ln)) "]" ->
  0 <= net.Port (Addr ln) <= 65535 ->
  exists w',
    tcpipForwardRequestHandler rev os ctx Payload w =
    (Ret (true, gossh.Marshal_response (net.Port (Addr ln))), w')
    /\ gossh.Unmarshal_response (gossh.Marshal_response (net.Port (Addr ln)))
       = Some (net.Port (Addr ln))
    /\ trace w' =
       trace w ++
         [ EvListen "tcp" (bind_address request);
           EvSend messages
             ("forwarding traffic from " +:+ net.TCPAddr_String (Addr ln));
           EvGo (GoCloseOnDone ln);
           EvGo (GoAccept rev ln messages sshConnection
                   (gossh.BindAddr request) (net.Port (Addr ln))) ]
    /\ chan_open w' messages = true.
Proof.
  intros Hm Hc Hopen Hdec Hacc Hos Hbo Hbc Hport.
  destruct (handler_bind_success rev os ctx messages sshConnection Hm Hc
              Payload request ln w Hdec Hacc Hos Hopen)
    as (w' & Hrun & Htr & Hopen').
  rewrite (bound_port_listener ln Hbo Hbc Hport) in Hrun, Htr.
  exists w'. split.
  - rewrite Hrun. unfold uint32. rewrite Z.mod_small by lia. reflexivity.
  - split; [apply Unmarshal_Marshal_response; lia |]. auto.
Qed.

Lemma chan_open_lookup (w : World) (c : chan_id) :
  chan_open w c = true ->
  exists st, chans w !! c = Some st /\ chan_closed st = false.
Proof.
  unfold chan_open. destruct (chans w !! c) as [st |]; [| discriminate].
  intros H. exists st. split; [reflexivity |].
  destruct (chan_closed st); [discriminate | reflexivity].
Qed.

(** The handler changes no channel but the messages channel of its own
    connection, and closes no socket and no logical channel. *)
Theorem handler_keeps_other_channels (rev : revision) (os : OS)
  (ctx : gmap ctx_key ctx_value) (messages : chan_id)
  (sshConnection : ServerConn) (Payload : list byte) (w : World)
  (c : chan_id) :
  ctx !! KeyString messageChannelName = Some (VChanString messages) ->
  ctx !! ContextKeyConn = Some (VServerConn sshConnection) ->
  chan_open w messages = true ->
  c <> messages ->
  let w' := snd (tcpipForwardRequestHandler rev os ctx Payload w) in
  chans w' !! c = chans w !! c
  /\ closed_conns w' = closed_conns w
  /\ closed_channels w' = closed_channels w.
Proof.
  intros Hm Hc Hopen Hne. cbv zeta.
  destruct (chan_open_lookup w messages Hopen) as (st & Hst & Hcl).
  destruct (rejects os Payload) eqn:Hrej.
  - destruct (handler_rejects_state rev os ctx messages sshConnection w st
                Hm Hc Hst Hcl Payload Hrej)
      as (p & w' & Hrun & Hch & Hcc & Hcch).
    rewrite Hrun. simpl. rewrite Hch, lookup_insert_ne by congruence. auto.
  - destruct (handler_binds_state rev os ctx messages sshConnection w st
                Hm Hc Hst Hcl Payload Hrej)
      as (request & ln & w' & _ & _ & _ & Hrun & Hch & Hcc & Hcch & _).
    rewrite Hrun. simpl. rewrite Hch, lookup_insert_ne by congruence. auto.
Qed.

(** Once the messages channel of a connection is closed, every further
    request on the connection panics and changes no channel. A request
    that would be rejected panics in the deferred [close]; a request
    that is bound panics in the notification, after [net.Listen] gave it
    a listener and before the goroutine that closes the listener is
    started. *)
Theorem request_on_closed_messages_panics (rev : revision) (os : OS)
  (ctx : gmap ctx_key ctx_value) (messages : chan_id)
  (sshConnection : ServerConn) (Payload : list byte) (w : World) :
  ctx !! KeyString messageChannelName = Some (VChanString messages) ->
  ctx !! ContextKeyConn = Some (VServerConn sshConnection) ->
  chan_is_closed w messages = true ->
  exists msg w',
    tcpipForwardRequestHandler rev os ctx Payload w = (Panic msg, w')
    /\ chans w' = chans w
    /\ (rejects os Payload = true -> msg = "close of closed channel")
    /\ (rejects os Payload = false ->
        msg = "send on closed channel"
        /\ exists request ln,
             gossh.Unmarshal_request Payload = Some request
             /\ os "tcp" (bind_address request) = Some ln
             /\ new_events w w' = [EvListen "tcp" (bind_address request)]).
Proof.
  intros Hm Hc Hcl. unfold rejects.
  destruct (gossh.Unmarshal_request Payload) as [request |] eqn:Hdec.
  - destruct (accepts_port (gossh.BindPort request)) eqn:Hacc.
    + destruct (os "tcp" (bind_address request)) as [ln |] eqn:Hos.
      * unfold tcpipForwardRequestHandler.
        rewrite Hm, Hc. unfold defer_ok, bind. simpl.
        rewrite Hdec, Hacc. fold (bind_address request). simpl. rewrite Hos.
        rewrite send_closed by exact Hcl.
        eexists _, _. split; [reflexivity |].
        split; [reflexivity |]. split; [discriminate |].
        intros _. split; [reflexivity |]. exists request, ln.
        split; [reflexivity |]. split; [exact Hos |].
        apply new_events_app. reflexivity.
      * rewrite (handler_bind_failure rev os ctx messages sshConnection Hm Hc
                   Payload request w Hdec Hacc Hos).
        rewrite defer_close_closed by exact Hcl.
        eexists _, _. split; [reflexivity |]. split; [reflexivity |].
        split; [reflexivity | discriminate].
    + rewrite (handler_reserved rev os ctx messages sshConnection Hm Hc
                 Payload request w Hdec Hacc).
      rewrite defer_close_closed by exact Hcl.
      eexists _, _. split; [reflexivity |]. split; [reflexivity |].
      split; [reflexivity | discriminate].
  - rewrite (handler_undecodable rev os ctx messages sshConnection Hm Hc
               Payload w Hdec).
    rewrite defer_close_closed by exact Hcl.
    eexists _, _. split; [reflexivity |]. split; [reflexivity |].
    split; [reflexivity | discriminate].
Qed.

(** ** New connections *)

(** [connectionWrapper] stores under the key "messages" a channel that
    did not exist before and is open, leaves every other channel and the
    trace as they were, and keeps the other values of the context. *)
Theorem connectionWrapper_fresh (ctx : gmap ctx_key ctx_value) (w : World) :
  exists c w',
    connectionWrapper ctx w
    = (Ret (<[KeyString messageChannelName := VChanString c]> ctx), w')
    /\ chans w !! c = None
    /\ chan_open w' c = true
    /\ (forall c', c' <> c -> chans w' !! c' = chans w !! c')
    /\ (forall k, k <> KeyString messageChannelName ->
          <[KeyString messageChannelName := VChanString c]> ctx !! k
          = ctx !! k)
    /\ trace w' = trace w.
Proof.
  exists (fresh (dom (chans w))). eexists. split; [reflexivity |].
  split.
  - apply not_elem_of_dom. apply is_fresh.
  - split; [unfold chan_open; simpl; rewrite lookup_insert_eq; reflexivity |].
    split; [intros c' Hne; simpl; apply lookup_insert_ne; congruence |].
    split; [intros k Hk; apply lookup_insert_ne; congruence | reflexivity].
Qed.

(** ** Accepted sockets *)

Lemma valid_addr_split (a : net.TCPAddr) :
  valid_addr a ->
  net.SplitHostPort (net.TCPAddr_String a)
  = (net.IP a, strconv.Itoa (net.Port a), None).
Proof.
  intros (Ho & Hc & Hp). unfold net.TCPAddr_String.
  apply SplitHostPort_JoinHostPort;
    first [assumption | apply Itoa_lacks; [lia | reflexivity]].
Qed.

Lemma valid_addr_port (a : net.TCPAddr) :
  valid_addr a ->
  strconv.Atoi (strconv.Itoa (net.Port a)) = (net.Port a, None)
  /\ uint32 (net.Port a) = net.Port a.
Proof.
  intros (_ & _ & Hp). split.
  - apply Atoi_Itoa. unfold int_max. lia.
  - unfold uint32. apply Z.mod_small. lia.
Qed.

Section relays.
Variables (ln : Listener) (messages : chan_id) (sshConnection : ServerConn).
Variables (BindAddr : string) (destPort : Z).

Let refactored :=
  tcpipForwardConnectionHandler ln (notifier messages)
    (newChannel sshConnection BindAddr destPort).

Let inline := accept_loop ln messages sshConnection BindAddr destPort.

(** The world after the loop has started the relay of a socket. *)
Let relaying (conn : Conn) (channel : Channel) (requests : Requests)
  (st : chan_state) (w : World) : World :=
  record (EvGo (GoCopy ToConn (Some channel) conn))
    (record (EvGo (GoCopy ToChannel (Some channel) conn))
       (record (EvGo (GoDiscardRequests (Some requests)))
          (record
             (EvOpenChannel sshConnection "forwarded-tcpip"
                (forwarded_payload BindAddr destPort conn))
             (record
                (EvSend messages
                   ("accepted connection from "
                      +:+ net.IP (RemoteAddr conn) +:+ ":"
                      +:+ strconv.Itoa (net.Port (RemoteAddr conn))))
                (set_chans
                   <[messages :=
                       {| chan_closed := false;
                          delivered :=
                            delivered st ++
                              ["accepted connection from "
                                 +:+ net.IP (RemoteAddr conn) +:+ ":"
                                 +:+ strconv.Itoa
                                       (net.Port (RemoteAddr conn))] |}]>
                   (record (EvAccept ln) w)))))).

Lemma refactored_relays (conn : Conn) (channel : Channel)
  (requests : Requests) (script : list accept_result) (st : chan_state)
  (w : World) :
  valid_addr (RemoteAddr conn) ->
  chans w !! messages = Some st -> chan_closed st = false ->
  refactored (Accepted conn (OpenOk channel requests) :: script) w
  = refactored script (relaying conn channel requests st w).
Proof.
  intros Hv Hst Hopen. unfold refactored.
  cbn [tcpipForwardConnectionHandler].
  rewrite (valid_addr_split _ Hv).
  unfold bind at 1. unfold emit at 1.
  unfold bind at 1. unfold notifier at 1.
  rewrite (send_open_state _ messages st) by assumption.
  unfold newChannel at 1.
  destruct (valid_addr_port _ Hv) as [-> ->].
  reflexivity.
Qed.

Lemma inline_relays (conn : Conn) (channel : Channel)
  (requests : Requests) (script : list accept_result) (st : chan_state)
  (w : World) :
  valid_addr (RemoteAddr conn) ->
  chans w !! messages = Some st -> chan_closed st = false ->
  inline (Accepted conn (OpenOk channel requests) :: script) w
  = inline script (relaying conn channel requests st w).
Proof.
  intros Hv Hst Hopen. unfold inline.
  cbn [accept_loop].
  rewrite (valid_addr_split _ Hv).
  destruct (valid_addr_port _ Hv) as [-> ->].
  unfold bind at 1. unfold emit at 1.
  unfold bind at 1.
  rewrite (send_open_state _ messages st) by assumption.
  reflexivity.
Qed.

Lemma relaying_open (conn : Conn) (channel : Channel) (requests : Requests)
  (st : chan_state) (w : World) :
  exists st',
    chans (relaying conn channel requests st w) !! messages = Some st'
    /\ chan_closed st' = false.
Proof.
  eexists. unfold relaying. simpl. rewrite lookup_insert_eq.
  split; reflexivity.
Qed.

(** On a script of accepted sockets whose channels open, the accept
    loops of the two sources have the same effects: the same
    notifications, channel openings and goroutines, in the same order,
    and both end up waiting in [Accept]. *)
Theorem revisions_agree_on_relays (script : list accept_result) :
  Forall relayed script ->
  forall (st : chan_state) (w : World),
    chans w !! messages = Some st -> chan_closed st = false ->
    inline script w = (Blocked, snd (inline script w))
    /\ refactored script w = (Blocked, snd (inline script w)).
Proof.
  induction 1 as [| r script Hr _ IH]; intros st w Hst Hopen.
  - split; reflexivity.
  - destruct r as [conn [channel requests | err] | err]; try contradiction.
    simpl in Hr.
    rewrite (inline_relays conn channel requests script st w Hr Hst Hopen).
    rewrite (refactored_relays conn channel requests script st w Hr Hst
               Hopen).
    destruct (relaying_open conn channel requests st w) as (st' & Hst' & Ho').
    apply (IH st' _ Hst' Ho').
Qed.

(** For an accepted socket whose channel opens, the loop sends the
    notification with the address of the peer, opens a "forwarded-tcpip"
    channel whose payload carries the requested bind address, the port
    handed to the loop, and the address and port of the peer, starts the
    goroutine that discards the requests of the channel and the two copy
    goroutines, closes nothing, and goes on with the next [Accept]. *)
Theorem accepted_socket_is_relayed (conn : Conn) (channel : Channel)
  (requests : Requests) (script : list accept_result) (w : World) :
  valid_addr (RemoteAddr conn) ->
  chan_open w messages = true ->
  exists w1,
    refactored (Accepted conn (OpenOk channel requests) :: script) w
    = refactored script w1
    /\ trace w1 =
       trace w ++
         [ EvAccept ln;
           EvSend messages
             ("accepted connection from " +:+ net.IP (RemoteAddr conn)
                +:+ ":" +:+ strconv.Itoa (net.Port (RemoteAddr conn)));
           EvOpenChannel sshConnection "forwarded-tcpip"
             (gossh.Marshal_forward
                {| gossh.DestAddr := BindAddr;
                   gossh.DestPort := uint32 destPort;
                   gossh.OriginAddr := net.IP (RemoteAddr conn);
                   gossh.OriginPort := net.Port (RemoteAddr conn) |});
           EvGo (GoDiscardRequests (Some requests));
           EvGo (GoCopy ToChannel (Some channel) conn);
           EvGo (GoCopy ToConn (Some channel) conn) ]
    /\ chan_open w1 messages = true
    /\ closed_conns w1 = closed_conns w
    /\ closed_channels w1 = closed_channels w.
Proof.
  intros Hv Hopen.
  destruct (chan_open_lookup w messages Hopen) as (st & Hst & Hcl).
  exists (relaying conn channel requests st w).
  split; [apply refactored_relays; assumption |].
  split; [simpl; rewrite <- !app_assoc; reflexivity |].
  split; [| split; reflexivity].
  unfold chan_open, relaying. simpl. rewrite lookup_insert_eq. reflexivity.
Qed.
End relays.

(** ** The accept loop on a closed messages channel *)

(** Once the messages channel is closed, the goroutine of the accept
    loop panics at the next result of [Accept] that it reports: the
    send panics, and in the refactored source the deferred [close]
    panics as well. Nothing is sent, opened or closed. *)
Theorem accept_loop_panics_on_closed_messages (rev : revision)
  (ln : Listener) (messages : chan_id) (sshConnection : ServerConn)
  (BindAddr : string) (destPort : Z) (r : accept_result)
  (script : list accept_result) (w : World) :
  chan_is_closed w messages = true ->
  notifies rev r = true ->
  run_accept rev ln messages sshConnection BindAddr destPort (r :: script) w
  = (Panic "send on closed channel", record (EvAccept ln) w).
Proof.
  intros Hcl Hn.
  assert (forall msg,
            send messages msg (record (EvAccept ln) w)
            = (Panic "send on closed channel", record (EvAccept ln) w))
    as Hsend by (intros msg; apply send_closed; exact Hcl).
  assert (close messages (record (EvAccept ln) w)
          = (Panic "close of closed channel", record (EvAccept ln) w))
    as Hclose by (apply close_closed; exact Hcl).
  destruct rev, r as [conn answer | err]; unfold run_accept.
  - unfold bind at 1. cbn [accept_loop].
    destruct (net.SplitHostPort (net.TCPAddr_String (RemoteAddr conn)))
      as [[originAddr originPortStr] e].
    destruct (strconv.Atoi originPortStr) as [originPort e'].
    unfold bind at 1. unfold emit at 1. unfold bind at 1.
    rewrite Hsend. reflexivity.
  - unfold bind at 1. cbn [accept_loop].
    unfold bind at 1. unfold emit at 1. rewrite Hsend. reflexivity.
  - unfold defer. unfold bind at 1. cbn [tcpipForwardConnectionHandler].
    destruct (net.SplitHostPort (net.TCPAddr_String (RemoteAddr conn)))
      as [[addr port] e].
    unfold bind at 1. unfold emit at 1. unfold bind at 1.
    unfold notifier at 1. rewrite Hsend, Hclose. reflexivity.
  - unfold defer. unfold bind at 1. cbn [tcpipForwardConnectionHandler].
    simpl in Hn. apply negb_true_iff in Hn. unfold transient in Hn.
    rewrite Hn. unfold bind at 1. unfold emit at 1. unfold ret at 1.
    rewrite Hsend, Hclose. reflexivity.
Qed.

(** ** A channel that fails to open, in [ssh_server.go] *)

(** When the channel of an accepted socket fails to open, the loop of
    [ssh_server.go] sends a notification, closes the socket and ends:
    the messages channel is closed and the rest of the script is never
    accepted. *)
Theorem inline_open_failure_ends_tunnel (ln : Listener) (messages : chan_id)
  (sshConnection : ServerConn) (BindAddr : string) (destPort : Z)
  (conn : Conn) (err : string) (rest : list accept_result) (w : World) :
  chan_open w messages = true ->
  exists msg payload w',
    run_accept Inline ln messages sshConnection BindAddr destPort
      (Accepted conn (OpenErr err) :: rest) w = (Ret tt, w')
    /\ trace w' =
       trace w ++
         [ EvAccept ln;
           EvSend messages msg;
           EvOpenChannel sshConnection "forwarded-tcpip" payload;
           EvSend messages "error occurred while forwarding connection";
           EvConnClose conn;
           EvClose messages ]
    /\ conn_id conn ∈ closed_conns w'
    /\ chan_is_closed w' messages = true.
Proof.
  intros Hopen.
  destruct (chan_open_lookup w messages Hopen) as (st & Hst & Hcl).
  unfold run_accept. unfold bind at 1. cbn [accept_loop].
  destruct (net.SplitHostPort (net.TCPAddr_String (RemoteAddr conn)))
    as [[originAddr originPortStr] e].
  destruct (strconv.Atoi originPortStr) as [originPort e'].
  unfold bind at 1. unfold emit at 1. unfold bind at 1.
  rewrite (send_open_state _ messages st) by assumption.
  unfold bind at 1. unfold OpenChannel at 1. unfold bind at 1.
  unfold emit at 1. unfold ret at 1. unfold bind at 1.
  erewrite send_open_state;
    [| simpl; apply lookup_insert_eq | reflexivity].
  unfold Conn_Close.
  erewrite close_open_state;
    [| simpl; rewrite lookup_insert_eq; reflexivity | reflexivity].
  eexists _, _, _. split; [reflexivity |].
  split; [simpl; rewrite <- !app_assoc; reflexivity |].
  split; [simpl; set_solver |].
  unfold chan_is_closed. simpl. rewrite lookup_insert_eq. reflexivity.
Qed.

(** ** The helper that binds a listener *)

(** [tcpListen] calls [net.Listen] once, for the network "tcp" and the
    address that the request handler would ask for; this address splits
    back into the given host and the decimal text of the port, also for
    a host with colons. *)
Theorem tcpListen_address (os : OS) (addr : string) (port : Z) (w : World) :
  lacks addr "[" -> lacks addr "]" -> 0 <= port <= int_max ->
  let address :=
    bind_address {| gossh.BindAddr := addr; gossh.BindPort := port |} in
  tcpListen os addr port w
  = (Ret (os "tcp" address), record (EvListen "tcp" address) w)
  /\ net.SplitHostPort address = (addr, strconv.Itoa port, None)
  /\ strconv.Atoi (strconv.Itoa port) = (port, None).
Proof.
  intros Ho Hc Hp. cbv zeta. split; [reflexivity |]. split.
  - unfold bind_address. cbn [gossh.BindAddr gossh.BindPort].
    apply SplitHostPort_JoinHostPort;
      first [assumption | apply Itoa_lacks; [lia | reflexivity]].
  - apply Atoi_Itoa. exact Hp.
Qed.


(** ** What the session shows *)

(** After a request that the handler rejects, the loop of the session
    handler ends, having written only the messages sent before: the text
    of the rejection is in the reply and is not shown in the session.
    After a request that is bound, the session shows the line about the
    forwarded address and goes on waiting. *)
Theorem session_after_request (rev : revision) (os : OS)
  (ctx : gmap ctx_key ctx_value) (messages : chan_id)
  (sshConnection : ServerConn) (Payload : list byte) (w : World)
  (st : chan_state) :
  ctx !! KeyString messageChannelName = Some (VChanString messages) ->
  ctx !! ContextKeyConn = Some (VServerConn sshConnection) ->
  chans w !! messages = Some st -> chan_closed st = false ->
  let w' := snd (tcpipForwardRequestHandler rev os ctx Payload w) in
  (rejects os Payload = true ->
   messageForwardingHandler rev ctx w'
   = (Ret tt,
      {| output := String.concat "" (map (session_line rev) (delivered st));
         exit_status := None |}))
  /\ (rejects os Payload = false ->
      exists request ln,
        gossh.Unmarshal_request Payload = Some request
        /\ os "tcp" (bind_address request) = Some ln
        /\ messageForwardingHandler rev ctx w'
           = (Blocked,
              {| output :=
                   String.concat ""
                     (map (session_line rev)
                        (delivered st ++
                           ["forwarding traffic from "
                              +:+ net.TCPAddr_String (Addr ln)]));
                 exit_status := None |})).
Proof.
  intros Hm Hc Hst Hopen. cbv zeta. split; intros Hrej.
  - destruct (handler_rejects_state rev os ctx messages sshConnection w st
                Hm Hc Hst Hopen Payload Hrej) as (p & w' & Hrun & Hch & _).
    rewrite Hrun. unfold messageForwardingHandler.
    change (KeyString "messages") with (KeyString messageChannelName).
    rewrite Hm. cbn [snd]. rewrite Hch, lookup_insert_eq. reflexivity.
  - destruct (handler_binds_state rev os ctx messages sshConnection w st
                Hm Hc Hst Hopen Payload Hrej)
      as (request & ln & w' & Hdec & _ & Hos & Hrun & Hch & _).
    exists request, ln. split; [exact Hdec |]. split; [exact Hos |].
    rewrite Hrun. unfold messageForwardingHandler.
    change (KeyString "messages") with (KeyString messageChannelName).
    rewrite Hm. cbn [snd]. rewrite Hch, lookup_insert_eq. reflexivity.
Qed.

Lemma accept_failure_state (rev : revision) (ln : Listener)
  (messages : chan_id) (sshConnection : ServerConn) (BindAddr : string)
  (destPort : Z) (err : net.error) (rest : list accept_result) (w : World)
  (st : chan_state) :
  chans w !! messages = Some st -> chan_closed st = false ->
  notifies rev (AcceptFailed err) = true ->
  exists w',
    run_accept rev ln messages sshConnection BindAddr destPort
      (AcceptFailed err :: rest) w = (Ret tt, w')
    /\ chans w' =
       <[messages :=
           {| chan_closed := true;
              delivered :=
                delivered st ++ [accept_failure_message rev err] |}]>
         (chans w).
Proof.
  intros Hst Hopen Hn. destruct rev; unfold run_accept.
  - unfold bind at 1. cbn [accept_loop].
    unfold bind at 1. unfold emit at 1.
    rewrite (send_open_state _ messages st) by assumption.
    erewrite close_open_state;
      [| simpl; apply lookup_insert_eq | reflexivity].
    eexists. split; [reflexivity |]. simpl. apply insert_insert_eq.
  - simpl in Hn. apply negb_true_iff in Hn.
    unfold defer, bind.
    rewrite (handler_fatal ln messages sshConnection BindAddr destPort err
               rest w Hn).
    unfold errors_Wrap.
    rewrite (send_open_state _ messages st) by assumption.
    erewrite close_open_state;
      [| simpl; apply lookup_insert_eq | reflexivity].
    eexists. split; [reflexivity |]. simpl. apply insert_insert_eq.
Qed.

(** When [Accept] fails for good, the session shows the message about
    the failure as its last line and the loop of the session handler
    ends. *)
Theorem session_after_accept_failure (rev : revision)
  (ctx : gmap ctx_key ctx_value) (ln : Listener) (messages : chan_id)
  (sshConnection : ServerConn) (BindAddr : string) (destPort : Z)
  (err : net.error) (rest : list accept_result) (w : World)
  (st : chan_state) :
  ctx !! KeyString messageChannelName = Some (VChanString messages) ->
  chans w !! messages = Some st -> chan_closed st = false ->
  notifies rev (AcceptFailed err) = true ->
  let run :=
    run_accept rev ln messages sshConnection BindAddr destPort
      (AcceptFailed err :: rest) w in
  fst run = Ret tt
  /\ messageForwardingHandler rev ctx (snd run)
     = (Ret tt,
        {| output :=
             String.concat ""
               (map (session_line rev)
                  (delivered st ++ [accept_failure_message rev err]));
           exit_status := None |}).
Proof.
  intros Hm Hst Hopen Hn. cbv zeta.
  destruct (accept_failure_state rev ln messages sshConnection BindAddr
              destPort err rest w st Hst Hopen Hn) as (w' & Hrun & Hch).
  rewrite Hrun. split; [reflexivity |].
  unfold messageForwardingHandler.
  change (KeyString "messages") with (KeyString messageChannelName).
  rewrite Hm. cbn [snd]. rewrite Hch, lookup_insert_eq. reflexivity.
Qed.

(** Without a channel of strings under the key "messages" the session
    handler writes "internal server error", sets the exit status 1 and
    then never returns: it goes on to range over the nil channel. *)
Theorem session_without_messages (rev : revision)
  (ctx : gmap ctx_key ctx_value) (w : World) :
  (forall c, ctx !! KeyString messageChannelName <> Some (VChanString c)) ->
  messageForwardingHandler rev ctx w
  = (Blocked,
     {| output := "internal server error" +:+ newline;
        exit_status := Some 1 |}).
Proof.
  intros H. unfold messageForwardingHandler.
  change (KeyString "messages") with (KeyString messageChannelName).
  destruct (ctx !! KeyString messageChannelName) as [[c | c | s] |] eqn:E;
    try reflexivity.
  exfalso. apply (H c). reflexivity.
Qed.

(** ** The further theorems at concrete inputs *)

Lemma closed_world_closed : chan_is_closed closed_world 0%nat = true.
Proof. vm_compute. reflexivity. Defined.

Lemma served_world_chan :
  chans served_world !! 0%nat
  = Some {| chan_closed := false; delivered := [] |}.
Proof. vm_compute. reflexivity. Defined.

Lemma later_conn_valid : valid_addr (RemoteAddr later_conn).
Proof.
  split; [vm_compute; reflexivity |].
  split; [vm_compute; reflexivity |]. simpl. lia.
Defined.

Lemma handler_without_messages_witness :
  tcpipForwardRequestHandler Inline refusing ∅ (bind_request 8080)
    empty_world
  = (Ret (false, list_byte_of_string "internal server error"), empty_world).
Proof.
  apply (handler_without_messages Inline refusing ∅ (bind_request 8080)
           empty_world).
  intros c H. vm_compute in H. discriminate H.
Defined.

Lemma handler_without_connection_witness :
  tcpipForwardRequestHandler Inline refusing
    (<[KeyString messageChannelName := VChanString 0%nat]> ∅)
    (bind_request 22) served_world
  = (Panic "interface conversion", served_world).
Proof.
  apply (handler_without_connection Inline refusing
           (<[KeyString messageChannelName := VChanString 0%nat]> ∅)
           0%nat (bind_request 22) served_world).
  - vm_compute. reflexivity.
  - intros c H. vm_compute in H. discriminate H.
Defined.

Lemma bind_failure_rejected_witness :
  exists w',
    tcpipForwardRequestHandler Refactored refusing served_ctx
      (bind_request 8080) served_world = (Ret (false, []), w')
    /\ chan_is_closed w' 0%nat = true.
Proof.
  destruct (bind_failure_rejected Refactored refusing served_ctx 0%nat 1%nat
              (bind_request 8080)
              {| gossh.BindAddr := "localhost"; gossh.BindPort := 8080 |}
              served_world served_ctx_messages served_ctx_conn
              served_world_open ltac:(vm_compute; reflexivity)
              ltac:(vm_compute; reflexivity) ltac:(reflexivity))
    as (w' & Hrun & _ & Hcl).
  exists w'. split; [exact Hrun | exact Hcl].
Defined.

Lemma bound_port_reply_witness :
  exists w',
    tcpipForwardRequestHandler Inline
      (granting {| net.IP := "127.0.0.1"; net.Port := 8080 |})
      served_ctx (bind_request 8080) served_world
    = (Ret (true, gossh.Marshal_response 8080), w')
    /\ chan_open w' 0%nat = true.
Proof.
  destruct (bound_port_reply Inline
              (granting {| net.IP := "127.0.0.1"; net.Port := 8080 |})
              served_ctx 0%nat 1%nat (bind_request 8080)
              {| gossh.BindAddr := "localhost"; gossh.BindPort := 8080 |}
              {| ln_id := 0;
                 Addr := {| net.IP := "127.0.0.1"; net.Port := 8080 |} |}
              served_world served_ctx_messages served_ctx_conn
              served_world_open ltac:(vm_compute; reflexivity)
              ltac:(vm_compute; reflexivity) ltac:(reflexivity)
              ltac:(vm_compute; reflexivity) ltac:(vm_compute; reflexivity)
              ltac:(simpl; lia))
    as (w' & Hrun & _ & _ & Hopen).
  exists w'. split; [exact Hrun | exact Hopen].
Defined.

Lemma two_connections_open :
  chan_open two_connections_world 0%nat = true.
Proof. vm_compute. reflexivity. Defined.

Lemma handler_keeps_other_channels_witness :
  let w' :=
    snd (tcpipForwardRequestHandler Inline refusing served_ctx
           (bind_request 22) two_connections_world) in
  chans two_connections_world !! 1%nat
  = Some {| chan_closed := false;
            delivered := ["forwarding traffic from 127.0.0.1:8080"] |}
  /\ chans w' !! 1%nat
     = Some {| chan_closed := false;
               delivered := ["forwarding traffic from 127.0.0.1:8080"] |}
  /\ chan_is_closed w' 0%nat = true.
Proof.
  cbv zeta.
  destruct (handler_keeps_other_channels Inline refusing served_ctx 0%nat
              1%nat (bind_request 22) two_connections_world 1%nat
              served_ctx_messages served_ctx_conn two_connections_open
              ltac:(discriminate))
    as (H & _).
  split; [vm_compute; reflexivity |].
  split; [rewrite H; vm_compute; reflexivity | vm_compute; reflexivity].
Defined.

Lemma request_on_closed_messages_panics_witness :
  exists msg w',
    tcpipForwardRequestHandler Refactored
      (granting {| net.IP := "127.0.0.1"; net.Port := 8080 |})
      served_ctx (bind_request 8080) closed_world = (Panic msg, w')
    /\ chans w' = chans closed_world.
Proof.
  destruct (request_on_closed_messages_panics Refactored
              (granting {| net.IP := "127.0.0.1"; net.Port := 8080 |})
              served_ctx 0%nat 1%nat (bind_request 8080) closed_world
              served_ctx_messages served_ctx_conn closed_world_closed)
    as (msg & w' & Hrun & Hch & _).
  exists msg, w'. split; [exact Hrun | exact Hch].
Defined.

Lemma accepted_socket_is_relayed_witness :
  exists w1,
    tcpipForwardConnectionHandler example_listener (notifier 0%nat)
      (newChannel 1%nat "localhost" 8080)
      [Accepted later_conn (OpenOk 3%nat 4%nat)] served_world
    = tcpipForwardConnectionHandler example_listener (notifier 0%nat)
        (newChannel 1%nat "localhost" 8080) [] w1
    /\ chan_open w1 0%nat = true.
Proof.
  destruct (accepted_socket_is_relayed example_listener 0%nat 1%nat
              "localhost" 8080 later_conn 3%nat 4%nat [] served_world
              later_conn_valid served_world_open)
    as (w1 & Hrun & _ & Hopen & _).
  exists w1. split; [exact Hrun | exact Hopen].
Defined.

Lemma revisions_agree_on_relays_witness :
  tcpipForwardConnectionHandler example_listener (notifier 0%nat)
    (newChannel 1%nat "localhost" 8080)
    [Accepted later_conn (OpenOk 3%nat 4%nat)] served_world
  = (Blocked,
     snd (accept_loop example_listener 0%nat 1%nat "localhost" 8080
            [Accepted later_conn (OpenOk 3%nat 4%nat)] served_world)).
Proof.
  destruct (revisions_agree_on_relays example_listener 0%nat 1%nat
              "localhost" 8080 [Accepted later_conn (OpenOk 3%nat 4%nat)]
              ltac:(constructor; [exact later_conn_valid | constructor])
              {| chan_closed := false; delivered := [] |} served_world
              served_world_chan eq_refl)
    as (_ & H).
  exact H.
Defined.

Lemma accept_loop_panics_on_closed_messages_witness :
  run_accept Refactored example_listener 0%nat 1%nat "localhost" 8080
    [Accepted later_conn (OpenOk 3%nat 4%nat)] closed_world
  = (Panic "send on closed channel",
     record (EvAccept example_listener) closed_world).
Proof.
  apply (accept_loop_panics_on_closed_messages Refactored example_listener
           0%nat 1%nat "localhost" 8080
           (Accepted later_conn (OpenOk 3%nat 4%nat)) [] closed_world
           closed_world_closed eq_refl).
Defined.

Lemma inline_open_failure_ends_tunnel_witness :
  exists w',
    run_accept Inline example_listener 0%nat 1%nat "localhost" 8080
      refused_script served_world = (Ret tt, w')
    /\ chan_is_closed w' 0%nat = true.
Proof.
  destruct (inline_open_failure_ends_tunnel example_listener 0%nat 1%nat
              "localhost" 8080 refused_conn "rejected"
              [Accepted later_conn (OpenOk 3%nat 4%nat)] served_world
              served_world_open)
    as (msg & payload & w' & Hrun & _ & _ & Hcl).
  exists w'. split; [exact Hrun | exact Hcl].
Defined.

Lemma inline_accept_error_fatal_witness :
  exists w',
    run_accept Inline example_listener 0%nat 1%nat "localhost" 8080
      [AcceptFailed timeout_error; Accepted later_conn (OpenOk 3%nat 4%nat)]
      served_world = (Ret tt, w').
Proof.
  destruct (inline_accept_error_fatal example_listener 0%nat 1%nat
              "localhost" 8080 timeout_error
              [Accepted later_conn (OpenOk 3%nat 4%nat)] served_world
              served_world_open)
    as (w' & Hrun & _).
  exists w'. exact Hrun.
Defined.

Lemma tcpListen_address_witness :
  net.SplitHostPort
    (bind_address {| gossh.BindAddr := "::1"; gossh.BindPort := 8080 |})
  = ("::1", strconv.Itoa 8080, None).
Proof.
  destruct (tcpListen_address refusing "::1" 8080 empty_world
              ltac:(vm_compute; reflexivity) ltac:(vm_compute; reflexivity)
              ltac:(unfold int_max; lia))
    as (_ & H & _).
  exact H.
Defined.

Lemma session_after_request_witness :
  messageForwardingHandler Inline served_ctx
    (snd (tcpipForwardRequestHandler Inline refusing served_ctx
            (bind_request 22) served_world))
  = (Ret tt, {| output := ""; exit_status := None |}).
Proof.
  destruct (session_after_request Inline refusing served_ctx 0%nat 1%nat
              (bind_request 22) served_world
              {| chan_closed := false; delivered := [] |}
              served_ctx_messages served_ctx_conn served_world_chan eq_refl)
    as (H & _).
  apply H. vm_compute. reflexivity.
Defined.

Lemma session_after_accept_failure_witness :
  messageForwardingHandler Refactored served_ctx
    (snd (run_accept Refactored example_listener 0%nat 1%nat "localhost"
            8080 [AcceptFailed closed_error] served_world))
  = (Ret tt,
     {| output :=
          String.concat ""
            (map (session_line Refactored)
               ([] ++ [accept_failure_message Refactored closed_error]));
        exit_status := None |}).
Proof.
  destruct (session_after_accept_failure Refactored served_ctx
              example_listener 0%nat 1%nat "localhost" 8080 closed_error []
              served_world {| chan_closed := false; delivered := [] |}
              served_ctx_messages served_world_chan eq_refl eq_refl)
    as (_ & H).
  exact H.
Defined.

Lemma session_without_messages_witness :
  messageForwardingHandler Inline ∅ empty_world
  = (Blocked,
     {| output := "internal server error" +:+ newline;
        exit_status := Some 1 |}).
Proof.
  apply (session_without_messages Inline ∅ empty_world).
  intros c H. vm_compute in H. discriminate H.
Defined.
